(** * easypublisher: the draft / publish workflow of the admin extension

    A shallow embedding of [easymode/easypublisher/admin.py] and
    [easymode/easypublisher/models.py].  Python values, dictionaries and
    database tables are modelled explicitly; the operations of the admin
    class [EasyPublisher] are functions over a store made of the database
    tables and the revision that is being assembled during the request. *)

From stdpp Require Import gmap strings list fin_maps pretty sorting.
From Stdlib Require Import ZArith Lia.

Open Scope Z_scope.

(* ===================================================================== *)
(** * Python values and dictionaries *)
(* ===================================================================== *)

(** The field values that occur in the code: [None], booleans, integers
    (primary keys) and text. *)
Inductive pyval : Type :=
  | PNone
  | PBool (b : bool)
  | PInt (z : Z)
  | PStr (s : string).

#[global] Instance pyval_eq_dec : EqDecision pyval.
Proof. solve_decision. Defined.

(** [unicode(x)] *)
Definition unicode (v : pyval) : string :=
  match v with
  | PNone => "None"
  | PBool true => "True"
  | PBool false => "False"
  | PInt z => pretty z
  | PStr s => s
  end.

(** Truth value of [x] in a condition. *)
Definition truthy (v : pyval) : bool :=
  match v with
  | PNone => false
  | PBool b => b
  | PInt z => negb (z =? 0)
  | PStr s => negb (bool_decide (s = ""))
  end.

(** [a == b]; booleans compare as the integers 0 and 1. *)
Definition py_eq (a b : pyval) : bool :=
  match a, b with
  | PNone, PNone => true
  | PBool x, PBool y => bool_decide (x = y)
  | PBool x, PInt z | PInt z, PBool x => Z.b2z x =? z
  | PInt x, PInt y => x =? y
  | PStr s, PStr t => bool_decide (s = t)
  | _, _ => false
  end.

(** A Python [dict] with text keys.  The order of [items()] of a Python 2
    dictionary is unspecified; [map_to_list] plays that role. *)
Abbreviation dict := (gmap string pyval).

(** [d1 == d2]: same keys, and equal values under [==]. *)
Definition dict_eq (d1 d2 : dict) : bool :=
  bool_decide (dom d1 = dom d2) &&
  forallb (λ kv, match d2 !! kv.1 with
                 | Some w => py_eq kv.2 w
                 | None => false
                 end) (map_to_list d1).

(** [dict(pairs)]: the pairs are inserted from left to right, so a later
    pair replaces an earlier one with the same key. *)
Definition py_dict {V : Type} (pairs : list (string * V)) : gmap string V :=
  foldl (λ m kv, <[kv.1 := kv.2]> m) ∅ pairs.

(** [d.items()] *)
Definition items {V : Type} (d : gmap string V) : list (string * V) :=
  map_to_list d.

(** Exceptions that the modelled code can raise. *)
Inductive exn : Type :=
  | Http404
  | MultipleObjectsReturned
  | KeyError (key : string)
    (* [int(text)] on a text that is no number *)
  | ValueError (literal : string)
  | Raised (msg : string).

#[global] Instance exn_eq_dec : EqDecision exn.
Proof. solve_decision. Defined.

(* ===================================================================== *)
(** * Records of the database (models.py and the revision library) *)
(* ===================================================================== *)

(** [PUBLICATION_STATUSSES], the choices of the status column. *)
Definition PUBLICATION_STATUSSES : list (string * string) :=
  [ ("published", "Published");
    ("draft", "Draft");
    ("needs_work", "Needs work");
    ("updated", "Updated");
    ("declined", "Declined") ].

(** A model instance: its class and its attribute values.  [obj.pk] is the
    attribute ["id"], [None] for an instance that was never saved. *)
Record Instance : Type := mkInstance {
  cls : string;
  attrs : dict
}.

#[global] Instance Instance_eq_dec : EqDecision Instance.
Proof. solve_decision. Defined.

Definition getattr (o : Instance) (name : string) : option pyval :=
  attrs o !! name.

Definition hasattr (o : Instance) (name : string) : bool :=
  bool_decide (is_Some (attrs o !! name)).

Definition setattr (o : Instance) (name : string) (v : pyval) : Instance :=
  mkInstance (cls o) (<[name := v]> (attrs o)).

Definition pk (o : Instance) : pyval := default PNone (attrs o !! "id").

(** [model_to_dict(obj)] *)
Definition model_to_dict (o : Instance) : dict := attrs o.

(** [reversion.Revision] *)
Record Revision : Type := mkRevision {
  rev_id : Z;
  rev_comment : string
}.

#[global] Instance Revision_eq_dec : EqDecision Revision.
Proof. solve_decision. Defined.

(** [reversion.Version]: the snapshot of one object inside a revision.
    [object_id] is the text of the primary key, ['None'] for a snapshot of
    an unsaved object; [content_type] names the model class. *)
Record Version : Type := mkVersion {
  ver_id : Z;
  ver_revision : Z;
  object_id : string;
  content_type : string;
  field_dict : dict
}.

#[global] Instance Version_eq_dec : EqDecision Version.
Proof. solve_decision. Defined.

(** [EasyPublisherMetaData] *)
Record EasyPublisherMetaData : Type := mkMetaData {
  md_id : Z;
  md_revision : Z;
  status : string;
  language : string
}.

#[global] Instance EasyPublisherMetaData_eq_dec : EqDecision EasyPublisherMetaData.
Proof. solve_decision. Defined.

Definition set_status (s : string) (m : EasyPublisherMetaData) : EasyPublisherMetaData :=
  mkMetaData (md_id m) (md_revision m) s (language m).

(* ===================================================================== *)
(** * render_revision_form, GET branch: the rows of one inline formset *)
(* ===================================================================== *)

(** The versions of the revision are Python objects, each with its own
    [field_dict]; the code deletes keys from these dictionaries in place
    and puts the very same dictionaries into [initial].  That a deletion
    stays with the version object is what the comment of lines 393-396
    counts on: with several inlines of one model the key may already be
    gone.  The evaluated query set is the list [revision_versions]; a
    version object is named by its position in that list. *)
Abbreviation vref := nat.

(** A row of [initial] is either the [field_dict] of a version object
    (shared with it) or a dictionary of its own. *)
Inductive Row : Type :=
  | RowVersion (r : vref)
  | RowOwn (d : dict).

#[global] Instance Row_eq_dec : EqDecision Row.
Proof. solve_decision. Defined.

(** The dictionary a version object currently holds. *)
Definition current_field_dict (vs : list Version) (r : vref) : dict :=
  default ∅ (field_dict <$> vs !! r).

(** The dictionary a row currently denotes. *)
Definition row_dict (vs : list Version) (row : Row) : dict :=
  match row with
  | RowVersion r => current_field_dict vs r
  | RowOwn d => d
  end.

(** The test of the list comprehension (lines 370-371).  [and] evaluates
    the subscript [field_dict[fk_name]] only for a version of the formset's
    model, and the subscript raises [KeyError] on a missing key. *)
Definition is_related_version (fs_model fk_name : string) (obj_pk : pyval)
    (v : Version) : exn + bool :=
  if bool_decide (content_type v = fs_model) then
    match field_dict v !! fk_name with
    | None => inl (KeyError fk_name)
    | Some x => inr (bool_decide (unicode x = unicode obj_pk))
    end
  else inr false.

(** The list comprehension (lines 368-371), over the version objects from
    position [i] on. *)
Fixpoint related_versions_from (fs_model fk_name : string) (obj_pk : pyval)
    (i : nat) (vs : list Version) : exn + list (string * vref) :=
  match vs with
  | [] => inr []
  | v :: rest =>
      match is_related_version fs_model fk_name obj_pk v with
      | inl e => inl e
      | inr keep =>
          match related_versions_from fs_model fk_name obj_pk (S i) rest with
          | inl e => inl e
          | inr tl => inr (if keep then (object_id v, i) :: tl else tl)
          end
      end
  end.

Definition related_versions_of (fs_model fk_name : string) (obj_pk : pyval)
    (revision_versions : list Version) : exn + list (string * vref) :=
  related_versions_from fs_model fk_name obj_pk 0%nat revision_versions.

(** Lines 376-377: the entries with key ['None'] stay, the others go
    through a dictionary. *)
Definition dedup_related_versions {V : Type} (related_versions : list (string * V))
    : list (string * V) :=
  filter (λ kv, kv.1 = "None") related_versions ++
  items (py_dict (filter (λ kv, kv.1 ≠ "None") related_versions)).

(** The last entry of a list of pairs that has key [k]. *)
Definition last_occurrence {V : Type} (k : string) (l : list (string * V)) : option V :=
  snd <$> last (filter (λ kv, kv.1 = k) l).

(** Lines 381-387, for one live object of [formset.queryset].  The
    dictionary is rebuilt from [related_versions] for every object, so the
    [pop] acts on a temporary and [related_versions] itself stays as it is. *)
Definition live_row (related_versions : list (string * vref)) (related_obj : Instance) : Row :=
  let related_versions_dict := py_dict related_versions in
  match related_versions_dict !! unicode (pk related_obj) with
  | Some r => RowVersion r
  | None => RowOwn (<["DELETE" := PBool true]> (model_to_dict related_obj))
  end.

(** Lines 379-387: the first loop. *)
Definition live_rows (related_versions : list (string * vref)) (queryset : list Instance)
    : list Row :=
  foldl (λ initial related_obj, initial ++ [live_row related_versions related_obj])
        [] queryset.

(** [del initial_row["id"]] on the dictionary of a version object; a
    missing key is the [KeyError] that the code passes over. *)
Definition del_id (v : Version) : Version :=
  mkVersion (ver_id v) (ver_revision v) (object_id v) (content_type v)
            (delete "id" (field_dict v)).

(** [initial_row in initial]: some element is the same object or compares
    equal. *)
Definition row_in (vs : list Version) (initial_row : Row) (initial : list Row) : bool :=
  existsb (λ el, bool_decide (el = initial_row) ||
                 dict_eq (row_dict vs el) (row_dict vs initial_row)) initial.

(** Lines 388-401, one turn of the second loop.  The state is the version
    objects and the list [initial]. *)
Definition append_version_row (st : list Version * list Row) (kv : string * vref)
    : list Version * list Row :=
  let vs := alter del_id kv.2 st.1 in
  let initial_row := RowVersion kv.2 in
  if row_in vs initial_row st.2 then (vs, st.2) else (vs, st.2 ++ [initial_row]).

(** Lines 379-401: both loops, from the deduplicated [related_versions]. *)
Definition merge_initial (vs : list Version) (related_versions : list (string * vref))
    (queryset : list Instance) : list Version * list Row :=
  foldl append_version_row (vs, live_rows related_versions queryset) related_versions.

(** Lines 368-401 for one formset: the version objects afterwards, and
    [formset.initial]. *)
Definition formset_initial (fs_model fk_name : string) (obj_pk : pyval)
    (queryset : list Instance) (revision_versions : list Version)
    : exn + (list Version * list Row) :=
  match related_versions_of fs_model fk_name obj_pk revision_versions with
  | inl e => inl e
  | inr related_versions =>
      inr (merge_initial revision_versions (dedup_related_versions related_versions) queryset)
  end.

(* ===================================================================== *)
(** * The store: database tables and the revision under construction *)
(* ===================================================================== *)

Record DB : Type := mkDB {
  rows : list Instance;                     (* the tables of the models *)
  revisions : list Revision;
  versions : list Version;
  metadata : list EasyPublisherMetaData;
  messages : list (string * string);        (* user name, message *)
  admin_log : list string
}.

#[global] Instance DB_eq_dec : EqDecision DB.
Proof. solve_decision. Defined.

(** The state of [reversion.revision] during a request: the metadata added
    with [add_meta], the comment, and the objects to take snapshots of. *)
Record RevisionState : Type := mkRevisionState {
  rs_meta : list (string * string);         (* status, language *)
  rs_comment : string;
  rs_objects : list Instance
}.

Definition no_revision : RevisionState := mkRevisionState [] "" [].

Record Store : Type := mkStore {
  db : DB;
  revision : RevisionState
}.

(** Computations that read and write the store and may raise. *)
Definition M (A : Type) : Type := Store → (exn + A) * Store.

Definition ret {A : Type} (a : A) : M A := λ s, (inr a, s).

Definition bind {A B : Type} (m : M A) (k : A → M B) : M B :=
  λ s, match m s with
       | (inl e, s') => (inl e, s')
       | (inr a, s') => k a s'
       end.

Definition raise {A : Type} (e : exn) : M A := λ s, (inl e, s).

Definition get_db : M DB := λ s, (inr (db s), s).

Definition modify_db (f : DB → DB) : M unit :=
  λ s, (inr tt, mkStore (f (db s)) (revision s)).

Definition modify_revision (f : RevisionState → RevisionState) : M unit :=
  λ s, (inr tt, mkStore (db s) (f (revision s))).

#[global] Instance M_ret : MRet M := @ret.
#[global] Instance M_bind : MBind M := λ A B k m, bind m k.

(** [for x in xs: body(x)] *)
Fixpoint for_each {A : Type} (xs : list A) (body : A → M unit) : M unit :=
  match xs with
  | [] => ret tt
  | x :: rest => body x;; for_each rest body
  end.

(* ===================================================================== *)
(** * Requests and the admin class *)
(* ===================================================================== *)

Record User : Type := mkUser {
  username : string;
  is_superuser : bool;
  user_permissions : list string
}.

(** [user.has_perm(perm)]; a superuser has every permission. *)
Definition has_perm (u : User) (perm : string) : bool :=
  is_superuser u || bool_decide (perm ∈ user_permissions u).

Definition can_approve_for_publication : string :=
  "easypublisher.can_approve_for_publication".

(** What a posted inline formset amounts to for the code: whether it
    validates, the new and changed instances that [formset.save] yields,
    and the stored objects of the forms that are marked for deletion. *)
Record PostedFormSet : Type := mkPostedFormSet {
  fs_is_valid : bool;
  fs_instances : list Instance;
  fs_deleted : list Instance
}.

(** A request.  For a POST, [form_is_valid] and [form_instance] are what
    [form.is_valid()] and [save_form] give for the posted data. *)
Record Request : Type := mkRequest {
  method : string;
  user : User;
  LANGUAGE_CODE : string;
  form_is_valid : bool;
  form_instance : Instance;
  posted_formsets : list PostedFormSet
}.

(** An inline of the admin class with the formset class it produces. *)
Record InlineAdmin : Type := mkInlineAdmin {
  default_prefix : string;
  inline_model : string;
  fk_name : string
}.

Record EasyPublisher : Type := mkEasyPublisher {
  model : string;
  verbose_name : string;
  inline_instances : list InlineAdmin;
  revision_form_template : string;
  recover_form_template : string
}.

Inductive HttpResponse : Type :=
  | HttpResponseRedirect (url : string)
    (* the change view of the parent admin class, with this context *)
  | AdminChangeView (oid : string) (context : dict)
    (* [render_to_response]: template, initial data of the form, the
       inline formsets (prefix and rows), context *)
  | RenderedForm (template : string) (form_initial : dict)
                 (formsets : list (string * list dict)) (context : dict).

#[global] Instance HttpResponse_eq_dec : EqDecision HttpResponse.
Proof. solve_decision. Defined.

(* ===================================================================== *)
(** * Operations of the object-relational mapper *)
(* ===================================================================== *)

Definition with_rows (d : DB) (l : list Instance) : DB :=
  mkDB l (revisions d) (versions d) (metadata d) (messages d) (admin_log d).
Definition with_revisions (d : DB) (l : list Revision) : DB :=
  mkDB (rows d) l (versions d) (metadata d) (messages d) (admin_log d).
Definition with_versions (d : DB) (l : list Version) : DB :=
  mkDB (rows d) (revisions d) l (metadata d) (messages d) (admin_log d).
Definition with_metadata (d : DB) (l : list EasyPublisherMetaData) : DB :=
  mkDB (rows d) (revisions d) (versions d) l (messages d) (admin_log d).
Definition with_messages (d : DB) (l : list (string * string)) : DB :=
  mkDB (rows d) (revisions d) (versions d) (metadata d) l (admin_log d).
Definition with_admin_log (d : DB) (l : list string) : DB :=
  mkDB (rows d) (revisions d) (versions d) (metadata d) (messages d) l.

(** The key an auto-increment column gives to a new row. *)
Definition next_id (ids : list Z) : Z := 1 + foldr Z.max 0 ids.

Definition instance_ids (c : string) (l : list Instance) : list Z :=
  omap (λ o, if bool_decide (cls o = c)
             then match pk o with PInt z => Some z | _ => None end
             else None) l.

(** [r] is the table row of the instance [o]. *)
Definition same_row (o r : Instance) : bool :=
  bool_decide (cls r = cls o) && py_eq (pk r) (pk o).

(** [obj.save()] on the tables: an instance without key is inserted under
    a new key, one with a key replaces its row or is inserted. *)
Definition save_row (o : Instance) (d : DB) : Instance * DB :=
  match pk o with
  | PNone =>
      let o' := setattr o "id" (PInt (next_id (instance_ids (cls o) (rows d)))) in
      (o', with_rows d (rows d ++ [o']))
  | _ =>
      if existsb (same_row o) (rows d)
      then (o, with_rows d (map (λ r, if same_row o r then o else r) (rows d)))
      else (o, with_rows d (rows d ++ [o]))
  end.

(** [obj.save()]; the instance comes back with its key filled in.  Only
    the write to the table is modelled: no signal is sent, so the objects
    of the revision are those that the code itself hands to
    [post_save_receiver]. *)
Definition save (o : Instance) : M Instance :=
  λ s, let r := save_row o (db s) in (inr r.1, mkStore r.2 (revision s)).

(** [metadata.save()] *)
Definition metadata_save (m : EasyPublisherMetaData) (d : DB) : DB :=
  with_metadata d
    (if existsb (λ x, md_id x =? md_id m) (metadata d)
     then map (λ x, if md_id x =? md_id m then m else x) (metadata d)
     else metadata d ++ [m]).

(** [obj.delete()] on the tables: the row of the instance goes.  Rows of
    other objects that point to it are not followed. *)
Definition delete_row (o : Instance) (d : DB) : DB :=
  with_rows d (filter (λ r, same_row o r = false) (rows d)).

Definition delete_obj (o : Instance) : M unit := modify_db (delete_row o).

(** [int(text)] for text in ASCII: white space around an optional sign
    and one or more decimal digits. *)
Fixpoint lstrip (s : string) : string :=
  match s with
  | EmptyString => EmptyString
  | String c rest => if Ascii.is_space c then lstrip rest else s
  end.

Definition strip (s : string) : string :=
  String.rev (lstrip (String.rev (lstrip s))).

Fixpoint digits (acc : Z) (s : string) : option Z :=
  match s with
  | EmptyString => Some acc
  | String c rest =>
      match Ascii.is_nat c with
      | Some n => digits (10 * acc + Z.of_nat n) rest
      | None => None
      end
  end.

Definition plus_sign : Ascii.ascii := Ascii.ascii_of_nat 43.
Definition minus_sign : Ascii.ascii := Ascii.ascii_of_nat 45.

Definition int_of_text (text : string) : option Z :=
  match strip text with
  | EmptyString => None
  | String c rest =>
      if bool_decide (c = minus_sign) then
        if bool_decide (rest = EmptyString) then None else Z.opp <$> digits 0 rest
      else if bool_decide (c = plus_sign) then
        if bool_decide (rest = EmptyString) then None else digits 0 rest
      else digits 0 (String c rest)
  end.

(** The value of a lookup by a key taken from the URL: the models have the
    integer key [id] that the framework gives them, and a lookup converts
    the text with [int], whose [ValueError] nothing catches. *)
Definition key_of_text (text : string) : M Z :=
  match int_of_text text with
  | Some k => ret k
  | None => raise (ValueError text)
  end.

(** [get_object_or_404], given the rows that match the lookup. *)
Definition get_object_or_404 {A : Type} (matching : list A) : M A :=
  match matching with
  | [] => raise Http404
  | [x] => ret x
  | _ => raise MultipleObjectsReturned
  end.

(** [request.user.message_set.create(message=...)] *)
Definition message_create (request : Request) (message : string) : M unit :=
  modify_db (λ d, with_messages d (messages d ++ [(username (user request), message)])).

(* ===================================================================== *)
(** * Operations of the revision library *)
(* ===================================================================== *)

(** [reversion.revision.add_meta(EasyPublisherMetaData, status=, language=)] *)
Definition add_meta (status language : string) : M unit :=
  modify_revision (λ r, mkRevisionState (rs_meta r ++ [(status, language)])
                                        (rs_comment r) (rs_objects r)).

(** [reversion.revision.comment = c] *)
Definition set_comment (c : string) : M unit :=
  modify_revision (λ r, mkRevisionState (rs_meta r) c (rs_objects r)).

(** [reversion.revision.post_save_receiver(instance, 0)]: the instance
    joins the objects of the revision. *)
Definition post_save_receiver (instance : Instance) : M unit :=
  modify_revision (λ r, mkRevisionState (rs_meta r) (rs_comment r)
                                        (rs_objects r ++ [instance])).

Definition add_version (rid : Z) (d : DB) (o : Instance) : DB :=
  with_versions d
    (versions d ++ [mkVersion (next_id (ver_id <$> versions d)) rid
                              (unicode (pk o)) (cls o) (attrs o)]).

Definition add_metadata (rid : Z) (d : DB) (m : string * string) : DB :=
  with_metadata d
    (metadata d ++ [mkMetaData (next_id (md_id <$> metadata d)) rid m.1 m.2]).

(** The end of a revision: with objects to record, a revision row, a
    version per object and a metadata row per [add_meta] are stored. *)
Definition revision_end (s : Store) : Store :=
  match rs_objects (revision s) with
  | [] => mkStore (db s) no_revision
  | _ =>
      let rid := next_id (rev_id <$> revisions (db s)) in
      let d1 := with_revisions (db s)
                  (revisions (db s) ++ [mkRevision rid (rs_comment (revision s))]) in
      let d2 := foldl (add_version rid) d1 (rs_objects (revision s)) in
      let d3 := foldl (add_metadata rid) d2 (rs_meta (revision s)) in
      mkStore d3 no_revision
  end.

(** [@reversion.revision.create_on_success]: a revision is open while the
    view runs; it is stored when the view returns and dropped when the
    view raises. *)
Definition create_on_success {A : Type} (view : M A) : M A :=
  λ s, match view (mkStore (db s) no_revision) with
       | (inr a, s') => (inr a, revision_end s')
       | (inl e, s') => (inl e, mkStore (db s') no_revision)
       end.

(** [@transaction.commit_on_success]: the writes of the view are committed
    when it returns and rolled back when it raises. *)
Definition commit_on_success {A : Type} (view : M A) : M A :=
  λ s, match view s with
       | (inr a, s') => (inr a, s')
       | (inl e, s') => (inl e, mkStore (db s) (revision s'))
       end.

(* ===================================================================== *)
(** * The admin class EasyPublisher (admin.py) *)
(* ===================================================================== *)

Section EasyPublisher.

(** The admin object, the language that [get_language()] gives during the
    request, and [form.save_m2m()] of the form built by the framework. *)
Variable self : EasyPublisher.
Variable get_language : string.
Variable save_m2m : Request → M unit.

(** ** save_model and save_formset (lines 143-183) *)

Definition save_model (request : Request) (obj : Instance) (change : bool) : M Instance :=
  if has_perm (user request) can_approve_for_publication then
    save obj
  else
    add_meta "draft" (LANGUAGE_CODE request);;
    set_comment "Draft";;
    obj ← (if negb change && hasattr obj "published" then
             obj ← save (setattr obj "published" (PBool false));
             mret (setattr obj "published" (PBool true))
           else mret obj);
    post_save_receiver obj;;
    mret obj.

(** [formset.save(commit)] of the framework the imports belong to: the
    objects of the forms marked for deletion are deleted at once, whatever
    [commit] is; the new and changed instances are saved when [commit] is
    true, and returned either way. *)
Definition formset_save (formset : PostedFormSet) (commit : bool) : M (list Instance) :=
  for_each (fs_deleted formset) delete_obj;;
  (if commit then for_each (fs_instances formset) (λ instance, save instance;; mret tt)
   else mret tt);;
  mret (fs_instances formset).

(** The replacement of [__eq__] on the class of an unsaved instance
    (lines 175-182) only changes how the revision library tells the
    objects in its set apart: [rs_objects] is the sequence of the
    instances handed to [post_save_receiver], in the order of the calls,
    of which the library keeps one for each class of equal objects. *)
Definition save_formset (request : Request) (formset : PostedFormSet) (change : bool)
    : M unit :=
  if has_perm (user request) can_approve_for_publication then
    formset_save formset true;; mret tt
  else
    add_meta "draft" (LANGUAGE_CODE request);;
    instances ← formset_save formset false;
    for_each instances post_save_receiver.

(** ** Drafts of an object (lines 185-231) *)

(** One [filter] call: its two conditions on versions hold of one version
    of the revision, its two conditions on metadata of one metadata row;
    [distinct()] lists each revision once. *)
Definition get_draft_revisions (d : DB) (oid : string) : list Revision :=
  let ct := model self in
  filter (λ r,
            Exists (λ v, ver_revision v = rev_id r ∧ object_id v = oid ∧
                         content_type v = ct) (versions d) ∧
            Exists (λ m, md_revision m = rev_id r ∧ status m = "draft" ∧
                         language m = get_language) (metadata d))
         (revisions d).

Definition has_draft (d : DB) (oid : string) : nat :=
  length (get_draft_revisions d oid).

Definition get_draft_versions (d : DB) (oid : string) : list Version :=
  let ct := model self in
  filter (λ v,
            Exists (λ m, md_revision m = ver_revision v ∧ status m = "draft" ∧
                         language m = get_language) (metadata d) ∧
            object_id v = oid ∧ content_type v = ct)
         (versions d).

Definition get_latest_draft_revision (d : DB) (oid : string) : option Revision :=
  let revisions := get_draft_revisions d oid in
  let num_revisions := length revisions in
  if bool_decide (num_revisions ≠ 0%nat)
  then revisions !! (num_revisions - 1)%nat
  else None.

Definition get_latest_draft (d : DB) (oid : string) : option Revision :=
  let latest_revision := get_latest_draft_revision d oid in
  latest_revision.

(** ** update_draft (lines 233-247) *)

(** The rows of the inner query: metadata joined with the versions of its
    revision that belong to the object of [version]. *)
Definition metadata_of_object (d : DB) (version : Version)
    : list EasyPublisherMetaData :=
  m ← metadata d;
  v ← versions d;
  if bool_decide (ver_revision v = md_revision m ∧
                  object_id v = object_id version ∧
                  content_type v = content_type version)
  then [m] else [].

Definition update_draft (version : Version) (request : Request) : M unit :=
  d ← get_db;
  for_each (filter (λ m, md_revision m = ver_revision version) (metadata d))
    (λ metadata,
       metadata ←
         (if has_perm (user request) can_approve_for_publication then
            let metadata := set_status "published" metadata in
            d ← get_db;
            for_each (metadata_of_object d version)
              (λ other, modify_db (metadata_save (set_status "declined" other)));;
            mret metadata
          else
            mret (set_status "updated" metadata));
       modify_db (metadata_save metadata)).

(** ** change_view (lines 95-110) *)

Definition change_view (request : Request) (oid : string)
    (extra_context : option dict) (d : DB) : HttpResponse :=
  let latest_draft := get_latest_draft d oid in
  let has_publish_perm := has_perm (user request) can_approve_for_publication in
  let context := default ∅ extra_context in
  match latest_draft with
  | Some latest_draft =>
      let context := <["has_draft" := PInt (rev_id latest_draft)]> context in
      if negb (truthy (default (PBool false) (context !! "current")))
         && negb has_publish_perm
      then HttpResponseRedirect ("drafts/" +:+ pretty (rev_id latest_draft) +:+ "/")
      else AdminChangeView oid context
  | None => AdminChangeView oid context
  end.

(** ** render_revision_form (lines 260-458) *)

(** [get_revision_form_data] of the parent class. *)
Definition get_revision_form_data (version : Version) : dict := field_dict version.

(** Lines 281-284 and 351-354: the prefix of the next formset. *)
Definition formset_prefix (prefixes : gmap string nat) (inline : InlineAdmin)
    : gmap string nat * string :=
  let prefix := default_prefix inline in
  let n := S (default 0%nat (prefixes !! prefix)) in
  (<[prefix := n]> prefixes,
   if bool_decide (n ≠ 1%nat) then prefix +:+ "-" +:+ pretty n else prefix).

(** [formset.queryset]: the live objects of the inline's model that point
    to [obj]. *)
Definition inline_queryset (d : DB) (inline : InlineAdmin) (obj : Instance)
    : list Instance :=
  filter (λ o, cls o = inline_model inline ∧
               from_option (λ x, py_eq x (pk obj)) false
                           (getattr o (fk_name inline)) = true)
         (rows d).

(** The loop of the GET branch over the formsets of the inlines (lines
    349-409).  The version objects are shared by all turns. *)
Fixpoint revision_formsets (d : DB) (obj : Instance) (inlines : list InlineAdmin)
    (prefixes : gmap string nat) (vs : list Version)
    (formsets : list (string * list Row))
    : exn + (list Version * list (string * list Row)) :=
  match inlines with
  | [] => inr (vs, formsets)
  | inline :: rest =>
      let (prefixes, prefix) := formset_prefix prefixes inline in
      let queryset := inline_queryset d inline obj in
      match formset_initial (inline_model inline) (fk_name inline) (pk obj)
                            queryset vs with
      | inl e => inl e
      | inr (vs, initial) =>
          revision_formsets d obj rest prefixes vs (formsets ++ [(prefix, initial)])
      end
  end.

(** The loop of the POST branch (lines 279-315). *)
Fixpoint post_formsets (inlines : list InlineAdmin) (posted : list PostedFormSet)
    (prefixes : gmap string nat) : list (string * PostedFormSet) :=
  match inlines, posted with
  | inline :: rest, formset :: posted' =>
      let (prefixes, prefix) := formset_prefix prefixes inline in
      (prefix, formset) :: post_formsets rest posted' prefixes
  | _, _ => []
  end.

(** The double quote character of the message of line 330. *)
Definition quote : string := String (Ascii.ascii_of_nat 34) EmptyString.

Definition log_change (message : string) : M unit :=
  modify_db (λ d, with_admin_log d (admin_log d ++ [message])).

Definition message_user (request : Request) (message : string) : M unit :=
  message_create request message.

(** Lines 425-449, the entries of the context that are plain values. *)
Definition form_context (context : dict) (obj : Instance) : dict :=
  <["object_id" := pk obj]> (<["is_popup" := PBool false]> (<["add" := PBool false]>
  (<["change" := PBool true]> (<["has_file_field" := PBool true]>
  (<["save_as" := PBool false]> context))))).

(** Lines 451-458. *)
Definition render (obj : Instance) (version : Version) (context : dict)
    (revert recover : bool) (formsets : list (string * list dict)) : M HttpResponse :=
  let context := form_context context obj in
  if revert then
    mret (RenderedForm (revision_form_template self)
                       (get_revision_form_data version) formsets context)
  else if recover then
    mret (RenderedForm (recover_form_template self)
                       (get_revision_form_data version) formsets context)
  else raise (Raised "AssertionError").

Definition render_revision_form (request : Request) (obj : Instance)
    (version : Version) (context : dict) (revert recover : bool) : M HttpResponse :=
  let oid := pk obj in
  if bool_decide (method request = "POST") then
    let form_validated := form_is_valid request in
    let new_object := if form_validated then form_instance request else obj in
    let formsets :=
      post_formsets (inline_instances self) (posted_formsets request) ∅ in
    if forallb (λ f, fs_is_valid f.2) formsets && form_validated then
      new_object ← save_model request new_object true;
      save_m2m request;;
      for_each formsets (λ f, save_formset request f.2 true);;
      update_draft version request;;
      log_change "Publisher message";;
      message_user request
        (verbose_name self +:+ " " +:+ quote +:+ cls obj +:+ " object" +:+ quote
           +:+ " publisher message.");;
      if revert then mret (HttpResponseRedirect "../../")
      else if recover then
        mret (HttpResponseRedirect ("../../" +:+ unicode oid +:+ "/"))
      else raise (Raised "AssertionError")
    else
      render obj version context revert recover
             (map (λ f, (f.1, attrs <$> fs_instances f.2)) formsets)
  else
    d ← get_db;
    let revision_versions :=
      filter (λ v, ver_revision v = ver_revision version) (versions d) in
    match revision_formsets d obj (inline_instances self) ∅ revision_versions [] with
    | inl e => raise e
    | inr (vs, formsets) =>
        render obj version context revert recover
               (map (λ f, (f.1, row_dict vs <$> f.2)) formsets)
    end.

(** ** publish_view (lines 112-141) *)

(** The arguments taken from the URL are text.  The lookups [pk=object_id]
    and [revision=revision_id] convert the text to a key first; the lookup
    [object_id=force_unicode(obj.pk)] compares text with text. *)
Definition publish_view_body (request : Request) (oid : string) (revision_id : string)
    (extra_context : option dict) : M HttpResponse :=
  d ← get_db;
  key ← key_of_text oid;
  obj ← get_object_or_404
          (filter (λ o, cls o = model self ∧ pk o = PInt key) (rows d));
  revision_key ← key_of_text revision_id;
  version ← get_object_or_404
          (filter (λ v, ver_revision v = revision_key ∧
                        object_id v = unicode (pk obj) ∧
                        content_type v = cls obj) (versions d));
  if bool_decide (filter (λ m, md_revision m = ver_revision version ∧
                               language m = LANGUAGE_CODE request)
                         (metadata d) = [])
  then
    message_create request
      ("There is no draft available for language " +:+ LANGUAGE_CODE request);;
    mret (HttpResponseRedirect "../../current")
  else
    let context : dict :=
      <["title" := PStr ("Publish " +:+ verbose_name self)]>
      (<["publish" := PBool true]> (<["has_draft" := PBool true]>
      (<["link_current" := PBool true]> (<["extra" := PInt 0]>
      (<["revision_id" := PStr revision_id]> ∅))))) in
    let context := default ∅ extra_context ∪ context in
    render_revision_form request obj version context true false.

Definition publish_view (request : Request) (oid : string) (revision_id : string)
    (extra_context : option dict) : M HttpResponse :=
  commit_on_success
    (create_on_success (publish_view_body request oid revision_id extra_context)).

End EasyPublisher.

(* ===================================================================== *)
(** * The invariant of the second loop of the GET branch *)
(* ===================================================================== *)

(** The state of the loop of lines 388-401 after the entries [processed]
    of [related_versions]; [vs0] and [live] are the version objects and the
    list [initial] when the loop starts. *)
Record merge_inv (vs0 : list Version) (live : list Row)
    (processed : list (string * vref)) (st : list Version * list Row) : Prop := {
  inv_live : ∃ extra, st.2 = live ++ extra;
  inv_dicts : ∀ r, current_field_dict st.1 r =
                   if decide (r ∈ processed.*2)
                   then delete "id" (current_field_dict vs0 r)
                   else current_field_dict vs0 r;
  inv_extra : ∀ j row, (length live ≤ j)%nat → st.2 !! j = Some row →
                ∃ k r, (k, r) ∈ processed ∧ row = RowVersion r ∧ RowVersion r ∉ live;
  inv_present : ∀ k r, (k, r) ∈ processed → row_in st.1 (RowVersion r) st.2 = true;
  inv_skip : ∀ i j row_i row_j, (i < j)%nat → (length live ≤ j)%nat →
                st.2 !! i = Some row_i → st.2 !! j = Some row_j →
                ((length live ≤ i)%nat ∨ ∃ d, row_i = RowOwn d) →
                dict_eq (row_dict st.1 row_i) (row_dict st.1 row_j) = false
}.

(* ===================================================================== *)
(** * A concrete scenario: an article with one comment *)
(* ===================================================================== *)

Module Scenario.

Definition admin : EasyPublisher :=
  mkEasyPublisher "Article" "article"
    [mkInlineAdmin "comment_set" "Comment" "article"]
    "easymode/easypublisher/publish_form.html" "reversion/recover_form.html".

Definition editor : User := mkUser "editor" false [].
Definition chief : User := mkUser "chief" false [can_approve_for_publication].

Definition article : Instance :=
  mkInstance "Article"
    (<["id" := PInt 1]> (<["title" := PStr "Old title"]> (<["published" := PBool true]> ∅))).
Definition comment : Instance :=
  mkInstance "Comment"
    (<["id" := PInt 5]> (<["article" := PInt 1]> (<["text" := PStr "Old"]> ∅))).
Definition edited_article : Instance := setattr article "title" (PStr "New title").
Definition edited_comment : Instance := setattr comment "text" (PStr "New").
Definition new_article : Instance :=
  mkInstance "Article" (<["title" := PStr "Fresh"]> (<["published" := PBool true]> ∅)).

(** The database before anybody made a draft. *)
Definition live_db : DB := mkDB [article; comment] [] [] [] [] [].

Definition posted (u : User) : Request :=
  mkRequest "POST" u "en" true edited_article [mkPostedFormSet true [edited_comment] []].
Definition viewing (u : User) (lang : string) : Request :=
  mkRequest "GET" u lang false article [].

(** The editor, who may not publish, changes the article and its comment
    in the change view of the parent class: one revision around
    [save_model] and [save_formset]. *)
Definition editor_saves_draft : M unit :=
  create_on_success
    (save_model (posted editor) edited_article true;;
     save_formset (posted editor) (mkPostedFormSet true [edited_comment] []) true).

Definition article_version : Version :=
  mkVersion 1 1 "1" "Article" (attrs edited_article).
Definition comment_version : Version :=
  mkVersion 2 1 "5" "Comment" (attrs edited_comment).

(** The database after the editor's draft: [save_model] and [save_formset]
    each added metadata to the revision. *)
Definition draft_db : DB :=
  mkDB [article; comment] [mkRevision 1 "Draft"]
       [article_version; comment_version]
       [mkMetaData 1 1 "draft" "en"; mkMetaData 2 1 "draft" "en"] [] [].

(** A [save_m2m] without effect, and one that raises. *)
Definition save_m2m_ok : Request → M unit := λ _, mret tt.
Definition save_m2m_raises : Request → M unit := λ _, raise (Raised "IntegrityError").

(** Version objects of a revision with two snapshots of comment 5 and a
    snapshot of a comment that was never saved. *)
Definition comment_versions : list Version :=
  [ mkVersion 2 1 "5" "Comment"
      (<["id" := PInt 5]> (<["article" := PInt 1]> (<["text" := PStr "First"]> ∅)));
    mkVersion 3 1 "None" "Comment"
      (<["id" := PNone]> (<["article" := PInt 1]> (<["text" := PStr "Unsaved"]> ∅)));
    mkVersion 4 1 "5" "Comment"
      (<["id" := PInt 5]> (<["article" := PInt 1]> (<["text" := PStr "Second"]> ∅))) ].

Definition other_comment : Instance :=
  mkInstance "Comment"
    (<["id" := PInt 6]> (<["article" := PInt 1]> (<["text" := PStr "Other"]> ∅))).

End Scenario.

(* ===================================================================== *)
(** * More of admin.py, models.py and the polls application *)
(* ===================================================================== *)

(** ** _eq (admin.py, lines 30-44) *)

(** The fields of [self] are the names of its attributes.  [getattr] on
    [obj] raises [AttributeError] for a name it does not have, which the
    loop turns into [False]; without any field the function raises (the
    text of [self] at the start of the message is left out). *)
Definition _eq (self obj : Instance) : exn + bool :=
  let field_names := (map_to_list (attrs self)).*1 in
  if bool_decide (field_names = []) then
    inl (Raised "has no fields or hides them very well")
  else
    inr (forallb (λ name, match getattr self name, getattr obj name with
                          | Some a, Some b => py_eq a b
                          | _, _ => false
                          end) field_names).

(** ** EasyPublisherModelManager.get_query_set (models.py, lines 16-21) *)

(** The rows of the manager's model, filtered by [published=True]. *)
Definition get_query_set (model_cls : string) (d : DB) : list Instance :=
  filter (λ o, from_option (λ v, py_eq v (PBool true)) false
                           (getattr o "published") = true)
         (filter (λ o, cls o = model_cls) (rows d)).

(** ** polls/views.py *)

Module Polls.
Section IndexView.

(** The questions of the polls application and the date each was
    published; the model itself is declared in [polls/models.py]. *)
Variable Question : Type.
Variable pub_date : Question → Z.

(** [a] comes no later than [b] under [order_by('-pub_date')]. *)
Definition newer_first (a b : Question) : Prop := pub_date b ≤ pub_date a.

#[global] Instance newer_first_dec : RelDecision newer_first.
Proof. intros a b. unfold newer_first. apply _. Defined.

#[global] Instance newer_first_total : Total newer_first.
Proof. intros a b. unfold newer_first. lia. Qed.

#[global] Instance newer_first_trans : Transitive newer_first.
Proof. intros a b c. unfold newer_first. lia. Qed.

(** [IndexView.get_queryset] (lines 21-22):
    [Question.objects.order_by('-pub_date')[:5]].  The order among
    questions of one date is left to the database; the sort here fixes
    one. *)
Definition get_queryset (questions : list Question) : list Question :=
  take 5 (merge_sort newer_first questions).

End IndexView.
End Polls.

(** ** The prefixes of the formsets (lines 281-284 and 351-354) *)

(** The prefixes that the loop over the inlines hands out, from the counts
    [prefixes] on. *)
Fixpoint formset_prefixes (inlines : list InlineAdmin) (prefixes : gmap string nat)
    : list string :=
  match inlines with
  | [] => []
  | inline :: rest =>
      let (prefixes, prefix) := formset_prefix prefixes inline in
      prefix :: formset_prefixes rest prefixes
  end.

(** The prefix of the [n]-th formset with the default prefix [prefix]. *)
Definition numbered_prefix (prefix : string) (n : nat) : string :=
  if bool_decide (n ≠ 1%nat) then prefix +:+ "-" +:+ pretty n else prefix.

(** ** get_urls (lines 57-70) *)

(** The three patterns are matched against the path below the root of the
    model's admin pages, in this order, before the patterns of the parent
    class. *)

Definition slash : Ascii.ascii := Ascii.ascii_of_nat 47.
Definition newline_char : Ascii.ascii := Ascii.ascii_of_nat 10.
Definition newline : string := String newline_char EmptyString.

(** [c] occurs in [s]. *)
Fixpoint contains (c : Ascii.ascii) (s : string) : bool :=
  match s with
  | EmptyString => false
  | String a rest => bool_decide (a = c) || contains c rest
  end.

(** The text before the first slash of [s] and the text after it. *)
Fixpoint split_slash (s : string) : option (string * string) :=
  match s with
  | EmptyString => None
  | String c rest =>
      if bool_decide (c = slash) then Some (EmptyString, rest)
      else match split_slash rest with
           | Some (a, b) => Some (String c a, b)
           | None => None
           end
  end.

(** [s] without its beginning [p]. *)
Fixpoint strip_prefix (p s : string) : option string :=
  match p, s with
  | EmptyString, _ => Some s
  | String a p', String b s' =>
      if bool_decide (a = b) then strip_prefix p' s' else None
  | String _ _, EmptyString => None
  end.

(** [s] without its end [suffix]. *)
Fixpoint strip_suffix (suffix s : string) : option string :=
  if bool_decide (s = suffix) then Some EmptyString
  else match s with
       | EmptyString => None
       | String c rest => String c <$> strip_suffix suffix rest
       end.

(** [$]: the end of the text, or the position before a last newline. *)
Definition at_end (s : string) : bool :=
  bool_decide (s = EmptyString) || bool_decide (s = newline).

(** [^([^/]+)/drafts/$] *)
Definition match_draftlist (path : string) : option string :=
  '(oid, rest) ← split_slash path;
  guard (oid ≠ EmptyString);;
  e ← strip_prefix "drafts/" rest;
  if at_end e then Some oid else None.

(** [^([^/]+)/drafts/([^/]+)/], which has no [$]. *)
Definition match_draft (path : string) : option (string * string) :=
  '(oid, rest) ← split_slash path;
  guard (oid ≠ EmptyString);;
  rest ← strip_prefix "drafts/" rest;
  '(revision_id, _) ← split_slash rest;
  guard (revision_id ≠ EmptyString);;
  Some (oid, revision_id).

(** [^(.+)/current/$]; the dot matches no newline. *)
Definition match_current (path : string) : option string :=
  oid ← match strip_suffix "/current/" path with
        | Some oid => Some oid
        | None => strip_suffix ("/current/" +:+ newline) path
        end;
  guard (oid ≠ EmptyString);;
  if contains newline_char oid then None else Some oid.

(** The view a path is handed to, with the arguments taken from it. *)
Inductive View : Type :=
  | DraftsView (oid : string)
  | PublishView (oid revision_id : string)
    (* [change_view] with [extra_context = {'current': True}] *)
  | CurrentView (oid : string)
    (* left to the patterns of the parent class *)
  | ParentUrls (path : string).

Definition resolve (path : string) : View :=
  match match_draftlist path with
  | Some oid => DraftsView oid
  | None =>
      match match_draft path with
      | Some (oid, revision_id) => PublishView oid revision_id
      | None =>
          match match_current path with
          | Some oid => CurrentView oid
          | None => ParentUrls path
          end
      end
  end.

(** [reverse] of the pattern named [..._draft]: the arguments are put in
    the places of the groups, and the result must match the pattern. *)
Definition reverse_draft (oid revision_id : string) : exn + string :=
  let candidate := oid +:+ "/drafts/" +:+ revision_id +:+ "/" in
  if bool_decide (is_Some (match_draft candidate)) then inr candidate
  else inl (Raised "NoReverseMatch").

(** ** drafts_view and history_view (lines 72-93) *)

(** What is handed to the history view of the parent class: the object,
    the list of actions when the caller sets one, and the plain entries of
    the context. *)
Record HistoryPage : Type := mkHistoryPage {
  hp_object_id : string;
  hp_action_list : option (list (Revision * string));
  hp_context : dict
}.

Section EasyPublisherViews.

Variable self : EasyPublisher.
Variable get_language : string.

(** The draft versions with their revisions ([select_related]), each with
    the address of its publish view. *)
Fixpoint action_list (pairs : list (Version * Revision))
    : exn + list (Revision * string) :=
  match pairs with
  | [] => inr []
  | (version, revision) :: rest =>
      match reverse_draft (object_id version) (pretty (rev_id revision)) with
      | inl e => inl e
      | inr url =>
          match action_list rest with
          | inl e => inl e
          | inr actions => inr ((revision, url) :: actions)
          end
      end
  end.

Definition drafts_view (request : Request) (oid : string)
    (extra_context : option dict) (d : DB) : exn + HistoryPage :=
  let pairs :=
    version ← get_draft_versions self get_language d oid;
    revision ← filter (λ r, rev_id r = ver_revision version) (revisions d);
    [(version, revision)] in
  match action_list pairs with
  | inl e => inl e
  | inr actions =>
      let context : dict :=
        <["title" := PStr "Unpublished items"]>
        (<["draft_view" := PBool true]>
        (<["has_draft" := PInt (Z.of_nat (has_draft self get_language d oid))]> ∅)) in
      let context := default ∅ extra_context ∪ context in
      inr (mkHistoryPage oid (Some actions) context)
  end.

Definition history_view (request : Request) (oid : string)
    (extra_context : option dict) (d : DB) : HistoryPage :=
  let defaults : dict :=
    <["has_draft" := PInt (Z.of_nat (has_draft self get_language d oid))]> ∅ in
  let defaults := default ∅ extra_context ∪ defaults in
  mkHistoryPage oid None defaults.

End EasyPublisherViews.

(** ** The two subclasses (lines 460-544) *)

Section Subclasses.

Variable self : EasyPublisher.
Variable get_language : string.
Variable save_m2m : Request → M unit.

(** [self.extra_forms] and [self._get_parent_link] of the classes that the
    subclasses mix in. *)
Variable extra_forms : string → pyval.
Variable _get_parent_link : string → dict.

(** Lines 460-477. *)
Definition _add_foreign_key_aware_model_admin_behaviour {R : Type}
    (method : Request → string → option dict → R)
    (request : Request) (oid : string) (extra_context : option dict) : R :=
  let inline_links : dict := <["extra_forms" := extra_forms oid]> ∅ in
  let inline_links := _get_parent_link oid ∪ inline_links in
  let inline_links := default ∅ extra_context ∪ inline_links in
  method request oid (Some inline_links).

(** Lines 504-519. *)
Definition _add_invisible_model_admin_behaviour {R : Type}
    (method : Request → string → option dict → R)
    (request : Request) (oid : string) (extra_context : option dict) : R :=
  let defaults := _get_parent_link oid in
  let defaults := default ∅ extra_context ∪ defaults in
  method request oid (Some defaults).

(** [EasyPublisherFKAModelAdmin] (lines 479-502). *)
Definition fka_publish_view (request : Request) (oid version_id : string)
    (extra_context : option dict) : M HttpResponse :=
  let inline_links : dict := <["extra_forms" := extra_forms oid]> ∅ in
  let inline_links := _get_parent_link oid ∪ inline_links in
  let inline_links := default ∅ extra_context ∪ inline_links in
  publish_view self save_m2m request oid version_id (Some inline_links).

Definition fka_change_view : Request → string → option dict → DB → HttpResponse :=
  _add_foreign_key_aware_model_admin_behaviour (change_view self get_language).

(** [EasyPublisherInvisibleModelAdmin] (lines 521-544). *)
Definition invisible_publish_view (request : Request) (oid version_id : string)
    (extra_context : option dict) : M HttpResponse :=
  let defaults := _get_parent_link oid in
  let defaults := default ∅ extra_context ∪ defaults in
  publish_view self save_m2m request oid version_id (Some defaults).

Definition invisible_change_view : Request → string → option dict → DB → HttpResponse :=
  _add_invisible_model_admin_behaviour (change_view self get_language).

End Subclasses.

(** Two responses that differ at most in the context of a rendered form
    or of the change view. *)
Definition same_up_to_context (a b : exn + HttpResponse) : Prop :=
  match a, b with
  | inl e, inl e' => e = e'
  | inr (HttpResponseRedirect u), inr (HttpResponseRedirect u') => u = u'
  | inr (AdminChangeView o _), inr (AdminChangeView o' _) => o = o'
  | inr (RenderedForm t f fs _), inr (RenderedForm t' f' fs' _) =>
      t = t' ∧ f = f' ∧ fs = fs'
  | _, _ => False
  end.

(** ** Notions used in the statements below *)

Ltac solve_elem_of := repeat first [apply list_elem_of_here | apply list_elem_of_further].

(** [x] is the row [y] up to its status, which is as before or one of the
    three that [update_draft] writes. *)
Definition status_updated (x y : EasyPublisherMetaData) : Prop :=
  md_id x = md_id y ∧ md_revision x = md_revision y ∧ language x = language y ∧
  (status x = status y ∨ status x ∈ ["published"; "declined"; "updated"]).

(** One turn of the loop of [update_draft], on the tables. *)
Definition update_draft_turn (version : Version) (request : Request)
    (m : EasyPublisherMetaData) (d : DB) : DB :=
  if has_perm (user request) can_approve_for_publication then
    metadata_save (set_status "published" m)
      (foldl (λ d other, metadata_save (set_status "declined" other) d) d
             (metadata_of_object d version))
  else metadata_save (set_status "updated" m) d.

(** The tables of [d] are those of [d0] up to the statuses of the
    metadata. *)
Definition only_statuses_changed (d0 d : DB) : Prop :=
  Forall2 status_updated (metadata d) (metadata d0) ∧
  rows d = rows d0 ∧ revisions d = revisions d0 ∧ versions d = versions d0 ∧
  messages d = messages d0 ∧ admin_log d = admin_log d0.

(** [v] is a snapshot of an object of the formset's model whose foreign
    key has the text of the key of [obj]. *)
Definition related_to (fs_model fk_name : string) (obj_pk : pyval) (v : Version) : Prop :=
  content_type v = fs_model ∧
  ∃ x, field_dict v !! fk_name = Some x ∧ unicode x = unicode obj_pk.

(** Every run of [m] relates the store before to the store after. *)
Definition preserves {A : Type} (R : relation Store) (m : M A) : Prop :=
  ∀ s, R s (m s).2.

(** The rows of the model tables are as before. *)
Definition rows_kept : relation Store :=
  λ s s', rows (db s') = rows (db s).

(** Nothing but messages was written, and the revision under construction
    is as before. *)
Definition only_messages_added : relation Store :=
  λ s s', revision s' = revision s ∧
          rows (db s') = rows (db s) ∧ revisions (db s') = revisions (db s) ∧
          versions (db s') = versions (db s) ∧ metadata (db s') = metadata (db s) ∧
          admin_log (db s') = admin_log (db s) ∧
          messages (db s) `prefix_of` messages (db s').

(** No row was added or changed: the rows are rows from before, in their
    order. *)
Definition rows_only_deleted : relation Store :=
  λ s s', rows (db s') `sublist_of` rows (db s).

#[global] Instance rows_only_deleted_preorder : PreOrder rows_only_deleted.
Proof.
  split; [intros s; unfold rows_only_deleted; reflexivity|].
  intros s1 s2 s3. unfold rows_only_deleted.
  intros H12 H23. etrans; [exact H23|exact H12].
Qed.

#[global] Instance rows_kept_preorder : PreOrder rows_kept.
Proof.
  split; [by intros s|]. intros s1 s2 s3. unfold rows_kept. congruence.
Qed.

#[global] Instance only_messages_added_preorder : PreOrder only_messages_added.
Proof.
  split.
  - intros s. unfold only_messages_added. by repeat split.
  - intros s1 s2 s3 (? & ? & ? & ? & ? & ? & ?) (? & ? & ? & ? & ? & ? & ?).
    unfold only_messages_added. repeat split; try congruence. by etrans.
Qed.

(** Two computations that end in the same store, with responses that
    differ at most in a context. *)
Definition agree (m m' : M HttpResponse) : Prop :=
  ∀ s, (m s).2 = (m' s).2 ∧ same_up_to_context (m s).1 (m' s).1.


(** ** More of the scenario *)

Module Cases.

(** Two instances of one class that differ in a field, and one without
    fields. *)
Definition unsaved_a : Instance :=
  mkInstance "Comment" (<["id" := PNone]> (<["text" := PStr "a"]> ∅)).
Definition unsaved_b : Instance :=
  mkInstance "Comment" (<["id" := PNone]> (<["text" := PStr "b"]> ∅)).

(** The formset of the scenario, as posted. *)
Definition comment_formset : PostedFormSet :=
  mkPostedFormSet true [Scenario.edited_comment] [].

(** A formset with two equal unsaved instances, and with the form of the
    stored comment marked for deletion. *)
Definition deleting_formset : PostedFormSet :=
  mkPostedFormSet true [unsaved_a; unsaved_a] [Scenario.comment].

(** The request of an editor who marks the stored comment for deletion. *)
Definition deleting_post (u : User) : Request :=
  mkRequest "POST" u "en" true Scenario.edited_article [deleting_formset].

(** A request whose posted form does not validate. *)
Definition invalid_post (u : User) : Request :=
  mkRequest "POST" u "en" false Scenario.edited_article [comment_formset].

(** Three drafts: revision 1 of the scenario with a single metadata row,
    an older draft (revision 2) of the same article with metadata in two
    languages, and a draft (revision 3) of another article. *)
Definition three_drafts_db : DB :=
  mkDB [Scenario.article; Scenario.comment]
       [mkRevision 1 "Draft"; mkRevision 2 "Draft"; mkRevision 3 "Draft"]
       [Scenario.article_version; Scenario.comment_version;
        mkVersion 3 2 "1" "Article" (attrs Scenario.article);
        mkVersion 4 3 "8" "Article" (attrs Scenario.new_article)]
       [mkMetaData 1 2 "draft" "en"; mkMetaData 2 1 "draft" "en";
        mkMetaData 3 2 "draft" "fr"; mkMetaData 4 3 "draft" "en"] [] [].

(** What the classes mixed into the subclasses give for every object. *)
Definition extra_forms : string → pyval := λ _, PNone.
Definition parent_link : string → dict := λ _, {["parent" := PStr "Section"]}.

End Cases.

(* ===================================================================== *)
(** * Properties *)
(* ===================================================================== *)

Ltac unfold_M :=
  unfold mbind, mret, M_bind, M_ret, bind, ret, raise, get_db, modify_db,
    modify_revision in *.

(** ** Lists and dictionaries *)

Lemma filter_all {A} (P : A → Prop) `{!∀ x, Decision (P x)} (l : list A) :
  Forall P l → filter P l = l.
Proof.
  induction 1 as [|x l Hx _ IH]; [done|].
  by rewrite filter_cons_True, IH.
Qed.

Lemma filter_none {A} (P : A → Prop) `{!∀ x, Decision (P x)} (l : list A) :
  Forall (λ x, ¬ P x) l → filter P l = [].
Proof.
  induction 1 as [|x l Hx _ IH]; [done|].
  by rewrite filter_cons_False.
Qed.

Lemma py_dict_snoc {V} (l : list (string * V)) kv :
  py_dict (l ++ [kv]) = <[kv.1 := kv.2]> (py_dict l).
Proof. unfold py_dict. by rewrite foldl_app. Qed.

Lemma last_occurrence_snoc {V} k (l : list (string * V)) kv :
  last_occurrence k (l ++ [kv]) =
  if decide (kv.1 = k) then Some kv.2 else last_occurrence k l.
Proof.
  unfold last_occurrence. rewrite filter_app, filter_cons, filter_nil.
  destruct (decide (kv.1 = k)).
  - by rewrite last_snoc.
  - by rewrite app_nil_r.
Qed.

Lemma py_dict_lookup {V} k (l : list (string * V)) :
  py_dict l !! k = last_occurrence k l.
Proof.
  induction l as [|kv l IH] using rev_ind; [done|].
  rewrite py_dict_snoc, last_occurrence_snoc, lookup_insert.
  by case_decide.
Qed.

Lemma last_occurrence_elem_of {V} k v (l : list (string * V)) :
  last_occurrence k l = Some v → (k, v) ∈ l.
Proof.
  unfold last_occurrence. destruct (last _) as [[k' v']|] eqn:Hl; [|done].
  intros [= ->]. apply last_Some_elem_of, list_elem_of_filter in Hl as [Hk Hl].
  simpl in Hk. by subst k'.
Qed.

Lemma last_occurrence_filter {V} (P : string → Prop) `{!∀ x, Decision (P x)}
    k (l : list (string * V)) :
  P k → last_occurrence k (filter (λ kv, P kv.1) l) = last_occurrence k l.
Proof.
  intros HP. unfold last_occurrence. rewrite list_filter_filter.
  do 2 f_equal. apply list_filter_iff. intros [k' v']; simpl.
  split; [by intros [? _]|by intros ->].
Qed.
(** ** Deduplication of the related versions *)

(** C4: after lines 376-377 every entry with key ['None'] is still there,
    in its place and as often as before; an entry with another key is
    there exactly when it is the last one with that key; and no key other
    than ['None'] occurs twice. *)
Theorem dedup_related_versions_spec {V : Type} (related_versions : list (string * V)) :
  let result := dedup_related_versions related_versions in
  filter (λ kv, kv.1 = "None") result = filter (λ kv, kv.1 = "None") related_versions ∧
  (∀ k v, k ≠ "None" →
     ((k, v) ∈ result ↔ last_occurrence k related_versions = Some v)) ∧
  NoDup (filter (λ k, k ≠ "None") result.*1).
Proof.
  cbn zeta. unfold dedup_related_versions, items.
  set (nones := filter (λ kv, kv.1 = "None") related_versions).
  set (others := filter (λ kv, kv.1 ≠ "None") related_versions).
  assert (Hnones : Forall (λ kv, kv.1 = "None") nones).
  { apply Forall_forall. intros kv Hin. by apply list_elem_of_filter in Hin as [? _]. }
  assert (Hothers : Forall (λ kv, kv.1 ≠ "None") (map_to_list (py_dict others))).
  { apply Forall_forall. intros [k v] Hin. apply elem_of_map_to_list in Hin.
    rewrite py_dict_lookup in Hin. apply last_occurrence_elem_of in Hin.
    by apply list_elem_of_filter in Hin as [? _]. }
  split; [|split].
  - rewrite filter_app, (filter_all _ nones), (filter_none _ (map_to_list _)).
    + apply app_nil_r.
    + eapply Forall_impl; [exact Hothers|]. naive_solver.
    + done.
  - intros k v Hk. rewrite elem_of_app, elem_of_map_to_list, py_dict_lookup.
    unfold others.
    pose proof (last_occurrence_filter (λ k, k ≠ "None") k related_versions Hk) as E.
    simpl in E. rewrite E. clear E.
    split; [intros [Hin|]; [|done]|by right].
    rewrite Forall_forall in Hnones. apply Hnones in Hin. done.
  - rewrite fmap_app, filter_app.
    rewrite (filter_none _ (nones.*1)), (filter_all _ ((map_to_list _).*1)).
    + apply NoDup_fst_map_to_list.
    + by apply Forall_fmap.
    + apply Forall_fmap. eapply Forall_impl; [exact Hnones|]. naive_solver.
Qed.

(** ** The rows of a formset *)

Lemma py_eq_refl v : py_eq v v = true.
Proof.
  destruct v as [|b|z|s]; simpl; try done.
  - by apply bool_decide_eq_true.
  - by apply Z.eqb_eq.
  - by apply bool_decide_eq_true.
Qed.

Lemma dict_eq_refl d : dict_eq d d = true.
Proof.
  unfold dict_eq. apply andb_true_iff. split; [by apply bool_decide_eq_true|].
  apply forallb_forall. intros [k v] Hin. apply list_elem_of_In in Hin.
  apply elem_of_map_to_list in Hin. simpl. rewrite Hin. apply py_eq_refl.
Qed.

Lemma dict_eq_dom d1 d2 : dict_eq d1 d2 = true → dom d1 = dom d2.
Proof.
  unfold dict_eq. intros [H _]%andb_true_iff. by apply bool_decide_eq_true in H.
Qed.

Lemma current_field_dict_alter vs r r' :
  current_field_dict (alter del_id r vs) r' =
  if decide (r' = r) then delete "id" (current_field_dict vs r')
  else current_field_dict vs r'.
Proof.
  unfold current_field_dict. case_decide as Hr.
  - subst r'. rewrite list_lookup_alter_eq.
    destruct (vs !! r); simpl; [done|by rewrite delete_empty].
  - by rewrite list_lookup_alter_ne.
Qed.

Lemma live_rows_map rvs qs : live_rows rvs qs = live_row rvs <$> qs.
Proof.
  unfold live_rows.
  induction qs as [|o qs IH] using rev_ind; [done|].
  by rewrite foldl_app, fmap_app, IH.
Qed.

Lemma row_in_true vs row initial :
  row_in vs row initial = true ↔
  ∃ el, el ∈ initial ∧ (el = row ∨ dict_eq (row_dict vs el) (row_dict vs row) = true).
Proof.
  unfold row_in. rewrite existsb_exists. split.
  - intros (el & Hin & Hel). exists el. split; [by apply list_elem_of_In|].
    apply orb_true_iff in Hel as [Hel|Hel]; [left|by right].
    by apply bool_decide_eq_true in Hel.
  - intros (el & Hin & Hel). exists el. split; [by apply list_elem_of_In|].
    apply orb_true_iff. destruct Hel as [Hel|Hel]; [left|by right].
    by apply bool_decide_eq_true.
Qed.

Lemma row_in_false vs row initial el :
  row_in vs row initial = false → el ∈ initial →
  el ≠ row ∧ dict_eq (row_dict vs el) (row_dict vs row) = false.
Proof.
  intros Hf Hin. split.
  - intros ->. apply not_true_iff_false in Hf. apply Hf, row_in_true. eauto.
  - apply not_true_iff_false. intros Heq.
    apply not_true_iff_false in Hf. apply Hf, row_in_true. eauto.
Qed.

(** A row whose dictionary has no key ["id"] denotes the same dictionary
    after [del initial_row["id"]] on any version object. *)
Lemma row_dict_alter vs r row :
  row_dict vs row !! "id" = None →
  row_dict (alter del_id r vs) row = row_dict vs row.
Proof.
  destruct row as [r'|d]; [|done]. simpl. intros Hid.
  rewrite current_field_dict_alter. case_decide; [|done]. by apply delete_id.
Qed.

Lemma merge_inv_start vs0 live : merge_inv vs0 live [] (vs0, live).
Proof.
  split; simpl.
  - exists []. by rewrite app_nil_r.
  - done.
  - intros j row Hj Hl. apply lookup_lt_Some in Hl. lia.
  - intros k r Hin. by apply elem_of_nil in Hin.
  - intros i j ri rj Hij Hj _ Hl. apply lookup_lt_Some in Hl. lia.
Qed.

Lemma merge_inv_step vs0 live processed st kv :
  merge_inv vs0 live processed st →
  merge_inv vs0 live (processed ++ [kv]) (append_version_row st kv).
Proof.
  destruct st as [vs initial], kv as [k r]. intros [Hlive Hdicts Hextra Hpresent Hskip].
  simpl in *.
  (* the dictionaries after this turn *)
  assert (Hdicts' : ∀ r', current_field_dict (alter del_id r vs) r' =
                     if decide (r' ∈ (processed ++ [(k, r)]).*2)
                     then delete "id" (current_field_dict vs0 r')
                     else current_field_dict vs0 r').
  { intros r'. rewrite current_field_dict_alter, Hdicts.
    assert (Hmem : r' ∈ (processed ++ [(k, r)]).*2 ↔ r' ∈ processed.*2 ∨ r' = r).
    { rewrite fmap_app, elem_of_app. simpl. by rewrite list_elem_of_singleton. }
    destruct (decide (r' = r)) as [->|Hne].
    - rewrite (decide_True (P := r ∈ (processed ++ [(k, r)]).*2)) by (apply Hmem; by right).
      case_decide; [by rewrite delete_delete_eq|done].
    - apply decide_ext. rewrite Hmem. split; [by left|by intros [?|?]]. }
  (* a processed version has no key "id" *)
  assert (Hnoid : ∀ k' r', (k', r') ∈ processed ++ [(k, r)] →
                  current_field_dict (alter del_id r vs) r' !! "id" = None).
  { intros k' r' Hin. rewrite Hdicts', decide_True.
    - apply lookup_delete_eq.
    - apply list_elem_of_fmap. by exists (k', r'). }
  (* the rows appended so far denote the same dictionaries as before *)
  assert (Hsame : ∀ j row, (length live ≤ j)%nat → initial !! j = Some row →
                  row_dict (alter del_id r vs) row = row_dict vs row).
  { intros j row Hj Hrow. destruct (Hextra j row Hj Hrow) as (k' & r' & Hin & -> & _).
    apply row_dict_alter. simpl. rewrite Hdicts, decide_True.
    - apply lookup_delete_eq.
    - apply list_elem_of_fmap. by exists (k', r'). }
  unfold append_version_row. simpl.
  destruct (row_in (alter del_id r vs) (RowVersion r) initial) eqn:Hin; split; simpl.
  - done.
  - done.
  - intros j row Hj Hrow. destruct (Hextra j row Hj Hrow) as (k' & r' & ? & ? & ?).
    exists k', r'. rewrite elem_of_app. auto.
  - intros k' r' [Hp| [= -> ->]%list_elem_of_singleton]%elem_of_app; [|done].
    specialize (Hpresent _ _ Hp). apply row_in_true in Hpresent as (el & Hel & Hcase).
    apply row_in_true. exists el. split; [done|].
    destruct Hcase as [->|Heq]; [by left|right].
    assert (Hr' : current_field_dict vs r' !! "id" = None).
    { rewrite Hdicts, decide_True; [apply lookup_delete_eq|].
      apply list_elem_of_fmap. by exists (k', r'). }
    rewrite (row_dict_alter _ _ (RowVersion r')) by done.
    rewrite row_dict_alter; [done|].
    apply not_elem_of_dom. rewrite (dict_eq_dom _ _ Heq). by apply not_elem_of_dom.
  - intros i j ri rj Hij Hj Hi Hrj Hcase.
    rewrite (Hsame j rj) by done.
    assert (row_dict (alter del_id r vs) ri = row_dict vs ri) as ->.
    { destruct Hcase as [Hi'|[d ->]]; [by apply (Hsame i)|done]. }
    by apply (Hskip i j).
  - destruct Hlive as [extra ->]. exists (extra ++ [RowVersion r]). by rewrite app_assoc.
  - done.
  - intros j row Hj Hrow. apply lookup_app_Some in Hrow as [Hrow|[Hlen Hrow]].
    + destruct (Hextra j row Hj Hrow) as (k' & r' & ? & ? & ?).
      exists k', r'. rewrite elem_of_app. auto.
    + apply list_lookup_singleton_Some in Hrow as [_ <-]. exists k, r.
      split; [apply elem_of_app; right; by apply list_elem_of_singleton|].
      split; [done|]. intros Hl.
      destruct Hlive as [extra ->].
      eapply (row_in_false _ _ _ (RowVersion r)) in Hin as [Hne _]; [done|].
      apply elem_of_app. by left.
  - intros k' r' Hp. apply row_in_true.
    apply elem_of_app in Hp as [Hp| [= -> ->]%list_elem_of_singleton].
    + specialize (Hpresent _ _ Hp). apply row_in_true in Hpresent as (el & Hel & Hcase).
      exists el. split; [apply elem_of_app; by left|].
      destruct Hcase as [->|Heq]; [by left|right].
      assert (Hr' : current_field_dict vs r' !! "id" = None).
      { rewrite Hdicts, decide_True; [apply lookup_delete_eq|].
        apply list_elem_of_fmap. by exists (k', r'). }
      rewrite (row_dict_alter _ _ (RowVersion r')) by done.
      rewrite row_dict_alter; [done|].
      apply not_elem_of_dom. rewrite (dict_eq_dom _ _ Heq). by apply not_elem_of_dom.
    + exists (RowVersion r). split; [|by left].
      apply elem_of_app. right. by apply list_elem_of_singleton.
  - intros i j ri rj Hij Hj Hi Hrj Hcase.
    apply lookup_app_Some in Hrj as [Hrj|[Hlen Hrj]].
    + assert (initial !! i = Some ri) as Hi'.
      { apply lookup_lt_Some in Hrj. by rewrite lookup_app_l in Hi by lia. }
      rewrite (Hsame j rj) by done.
      assert (row_dict (alter del_id r vs) ri = row_dict vs ri) as ->.
      { destruct Hcase as [Hi''|[d ->]]; [by apply (Hsame i)|done]. }
      by apply (Hskip i j).
    + apply list_lookup_singleton_Some in Hrj as [Hj' <-].
      assert (initial !! i = Some ri) as Hi'.
      { by rewrite lookup_app_l in Hi by lia. }
      eapply row_in_false in Hin as [_ Hne]; [done|].
      eapply list_elem_of_lookup_2. done.
Qed.

Lemma merge_inv_end vs0 rvs qs :
  merge_inv vs0 (live_rows rvs qs) rvs (merge_initial vs0 rvs qs).
Proof.
  unfold merge_initial. generalize (live_rows rvs qs) as live. intros live.
  induction rvs as [|kv rvs IH] using rev_ind.
  - apply merge_inv_start.
  - rewrite foldl_app. simpl. by apply merge_inv_step.
Qed.
Lemma merge_initial_field_dict vs0 rvs qs k r :
  (k, r) ∈ rvs →
  current_field_dict (merge_initial vs0 rvs qs).1 r =
    delete "id" (current_field_dict vs0 r).
Proof.
  intros Hin. rewrite (inv_dicts _ _ _ _ (merge_inv_end vs0 rvs qs)), decide_True; [done|].
  apply list_elem_of_fmap. by exists (k, r).
Qed.
(** C5: the rows of [initial] for one formset.  The row of a live
    object is the dictionary of the related version with its key when there
    is one, and else the object's own data with [DELETE] set.  The rows
    after these are dictionaries of related versions that no live object
    took, without the key ["id"].  Every related version ends without the
    key ["id"] and is present in [initial], as itself or as an equal row;
    and an appended row differs from the own data of every live object
    without a version and from every row appended before it. *)
Theorem render_revision_form_merge (vs : list Version)
    (related_versions : list (string * vref)) (queryset : list Instance) :
  let vs' := (merge_initial vs related_versions queryset).1 in
  let initial := (merge_initial vs related_versions queryset).2 in
  (∀ i related_obj, queryset !! i = Some related_obj →
     initial !! i =
       Some (match last_occurrence (unicode (pk related_obj)) related_versions with
             | Some r => RowVersion r
             | None => RowOwn (<["DELETE" := PBool true]> (model_to_dict related_obj))
             end)) ∧
  (∀ j row, (length queryset ≤ j)%nat → initial !! j = Some row →
     ∃ k r, (k, r) ∈ related_versions ∧ row = RowVersion r ∧
            (RowVersion r ∉ take (length queryset) initial) ∧
            row_dict vs' row = delete "id" (current_field_dict vs r)) ∧
  (∀ k r, (k, r) ∈ related_versions →
     current_field_dict vs' r = delete "id" (current_field_dict vs r) ∧
     row_in vs' (RowVersion r) initial = true) ∧
  (∀ i j row_i row_j, (i < j)%nat → (length queryset ≤ j)%nat →
     initial !! i = Some row_i → initial !! j = Some row_j →
     ((length queryset ≤ i)%nat ∨ ∃ d, row_i = RowOwn d) →
     dict_eq (row_dict vs' row_i) (row_dict vs' row_j) = false).
Proof.
  cbn zeta.
  destruct (merge_inv_end vs related_versions queryset)
    as [[extra Hlive] Hdicts Hextra Hpresent Hskip].
  assert (Hlen : length (live_rows related_versions queryset) = length queryset).
  { by rewrite live_rows_map, length_fmap. }
  rewrite Hlen in Hextra, Hskip.
  split; [|split; [|split]].
  - intros i o Hi. rewrite Hlive, lookup_app_l
      by (rewrite Hlen; by apply lookup_lt_Some in Hi).
    rewrite live_rows_map, list_lookup_fmap, Hi. simpl. unfold live_row.
    by rewrite py_dict_lookup.
  - intros j row Hj Hrow. destruct (Hextra j row Hj Hrow) as (k & r & Hin & -> & Hnot).
    exists k, r. split; [done|]. split; [done|]. split.
    + by rewrite Hlive, <- Hlen, take_app_length.
    + simpl. by apply (merge_initial_field_dict _ _ _ k).
  - intros k r Hin. split; [by apply (merge_initial_field_dict _ _ _ k)|by apply (Hpresent k)].
  - done.
Qed.
(** A live object that has a related version gets the dictionary of that
    version, which the second loop leaves without the key ["id"]. *)
Lemma matched_row_without_id (vs : list Version)
    (related_versions : list (string * vref)) (queryset : list Instance) i related_obj r :
  queryset !! i = Some related_obj →
  last_occurrence (unicode (pk related_obj)) related_versions = Some r →
  row_dict (merge_initial vs related_versions queryset).1 (RowVersion r) =
    delete "id" (current_field_dict vs r).
Proof.
  intros _ Hr. apply last_occurrence_elem_of in Hr.
  by apply (merge_initial_field_dict _ _ _ (unicode (pk related_obj))).
Qed.

(** ** Saving rows and storing a revision *)

Lemma save_row_stored o d : (save_row o d).1 ∈ rows (save_row o d).2.
Proof.
  unfold save_row. destruct (pk o) eqn:Hpk; simpl;
    try (apply elem_of_app; right; by apply list_elem_of_singleton).
  all: destruct (existsb (same_row o) (rows d)) eqn:Hex; simpl;
    try (apply elem_of_app; right; by apply list_elem_of_singleton).
  all: apply existsb_exists in Hex as (r & Hin & Hr);
    apply list_elem_of_fmap; exists r; rewrite Hr;
    split; [done|by apply list_elem_of_In].
Qed.

Lemma save_row_rows o d row :
  row ∈ rows (save_row o d).2 → row ∈ rows d ∨ row = (save_row o d).1.
Proof.
  unfold save_row. destruct (pk o) eqn:Hpk; simpl.
  1: { intros [?|?%list_elem_of_singleton]%elem_of_app; auto. }
  all: destruct (existsb (same_row o) (rows d)) eqn:Hex; simpl.
  all: try (intros [?|?%list_elem_of_singleton]%elem_of_app; auto).
  all: intros (r & -> & Hin)%list_elem_of_fmap; destruct (same_row o r); auto.
Qed.

Lemma save_row_other_tables o d :
  let d' := (save_row o d).2 in
  revisions d' = revisions d ∧ versions d' = versions d ∧
  metadata d' = metadata d ∧ messages d' = messages d ∧ admin_log d' = admin_log d.
Proof.
  unfold save_row. destruct (pk o); simpl; try done.
  all: by destruct (existsb _ _).
Qed.

Lemma save_row_attrs o d name :
  name ≠ "id" → getattr (save_row o d).1 name = getattr o name.
Proof.
  intros Hne. unfold save_row. destruct (pk o); simpl.
  1: { unfold getattr. simpl. by rewrite lookup_insert_ne. }
  all: by destruct (existsb _ _).
Qed.

Lemma add_metadata_stored rid metas d st lang :
  (st, lang) ∈ metas →
  ∃ m, m ∈ metadata (foldl (add_metadata rid) d metas) ∧
       md_revision m = rid ∧ status m = st ∧ language m = lang.
Proof.
  induction metas as [|x metas IH] using rev_ind; [by intros ?%elem_of_nil|].
  rewrite foldl_app. simpl.
  intros [Hin| <-%list_elem_of_singleton]%elem_of_app.
  - destruct (IH Hin) as (m & Hm & ?). exists m. split; [|done].
    simpl. apply elem_of_app. by left.
  - eexists. split; [simpl; apply elem_of_app; right; by apply list_elem_of_singleton|].
    done.
Qed.

Lemma add_version_stored rid objs d o :
  o ∈ objs →
  ∃ v, v ∈ versions (foldl (add_version rid) d objs) ∧
       ver_revision v = rid ∧ object_id v = unicode (pk o) ∧
       content_type v = cls o ∧ field_dict v = attrs o.
Proof.
  induction objs as [|x objs IH] using rev_ind; [by intros ?%elem_of_nil|].
  rewrite foldl_app. simpl.
  intros [Hin| ->%list_elem_of_singleton]%elem_of_app.
  - destruct (IH Hin) as (m & Hm & ?). exists m. split; [|done].
    simpl. apply elem_of_app. by left.
  - eexists. split; [simpl; apply elem_of_app; right; by apply list_elem_of_singleton|].
    done.
Qed.

Lemma add_metadata_versions rid metas d :
  versions (foldl (add_metadata rid) d metas) = versions d ∧
  revisions (foldl (add_metadata rid) d metas) = revisions d ∧
  rows (foldl (add_metadata rid) d metas) = rows d.
Proof.
  induction metas as [|x metas IH] using rev_ind; [done|].
  rewrite foldl_app. simpl. done.
Qed.

Lemma add_version_revisions rid objs d :
  revisions (foldl (add_version rid) d objs) = revisions d ∧
  rows (foldl (add_version rid) d objs) = rows d.
Proof.
  induction objs as [|x objs IH] using rev_ind; [done|].
  rewrite foldl_app. simpl. done.
Qed.

(** What the end of a revision stores for an object and a metadata entry
    of the revision. *)
Lemma revision_end_stored s o st lang :
  o ∈ rs_objects (revision s) → (st, lang) ∈ rs_meta (revision s) →
  let d' := db (revision_end s) in
  let rid := next_id (rev_id <$> revisions (db s)) in
  mkRevision rid (rs_comment (revision s)) ∈ revisions d' ∧
  (∃ v, v ∈ versions d' ∧ ver_revision v = rid ∧ object_id v = unicode (pk o) ∧
        content_type v = cls o ∧ field_dict v = attrs o) ∧
  (∃ m, m ∈ metadata d' ∧ md_revision m = rid ∧ status m = st ∧ language m = lang) ∧
  rows d' = rows (db s).
Proof.
  intros Ho Hm. cbn zeta. unfold revision_end.
  destruct (rs_objects (revision s)) as [|o0 objs] eqn:Hobjs; [by apply elem_of_nil in Ho|].
  cbn [db]. set (rid := next_id _). set (d1 := with_revisions _ _).
  split; [|split; [|split]].
  - rewrite (proj1 (proj2 (add_metadata_versions _ _ _))).
    rewrite (proj1 (add_version_revisions _ _ _)). subst d1. simpl.
    apply elem_of_app. right. by apply list_elem_of_singleton.
  - rewrite (proj1 (add_metadata_versions _ _ _)). by apply add_version_stored.
  - by apply add_metadata_stored.
  - rewrite (proj2 (proj2 (add_metadata_versions _ _ _))).
    by rewrite (proj2 (add_version_revisions _ _ _)).
Qed.

(** ** save_model *)

(** C1: with the publish permission [save_model] is [obj.save()]: the
    object is a row of the table afterwards and the revision under
    construction is as before.  Without it, the revision gets the metadata
    (draft, language of the request), the comment and the object; every
    row of the table afterwards was there before or is unpublished; and
    when the revision ends, a revision with that draft metadata is
    stored. *)
Theorem save_model_permission (request : Request) (obj : Instance) (change : bool)
    (s : Store) :
  let result := save_model request obj change s in
  if has_perm (user request) can_approve_for_publication then
    result = save obj s ∧
    (∃ obj', result.1 = inr obj' ∧ obj' ∈ rows (db result.2)) ∧
    revision result.2 = revision s
  else
    ∃ obj',
      result.1 = inr obj' ∧
      revision result.2 =
        mkRevisionState (rs_meta (revision s) ++ [("draft", LANGUAGE_CODE request)])
                        "Draft" (rs_objects (revision s) ++ [obj']) ∧
      (∀ row, row ∈ rows (db result.2) →
              row ∈ rows (db s) ∨ getattr row "published" = Some (PBool false)) ∧
      (∃ m, m ∈ metadata (db (revision_end result.2)) ∧
            md_revision m = next_id (rev_id <$> revisions (db s)) ∧
            status m = "draft" ∧ language m = LANGUAGE_CODE request) ∧
      mkRevision (next_id (rev_id <$> revisions (db s))) "Draft"
        ∈ revisions (db (revision_end result.2)).
Proof.
  cbn zeta. unfold save_model.
  destruct (has_perm _ _).
  - split; [done|]. split; [|done].
    eexists. split; [done|]. apply save_row_stored.
  - unfold add_meta, set_comment, post_save_receiver, save. unfold_M.
    cbn [db revision rs_meta rs_comment rs_objects fst snd].
    destruct (negb change && hasattr obj "published") eqn:Hnew;
      cbn [db revision rs_meta rs_comment rs_objects fst snd].
    + set (saved := save_row (setattr obj "published" (PBool false)) (db s)).
      exists (setattr saved.1 "published" (PBool true)).
      split; [done|]. split; [done|].
      assert (Hrev : revisions saved.2 = revisions (db s))
        by apply save_row_other_tables.
      split; [|].
      * intros row [Hrow| ->]%save_row_rows; [by left|right].
        rewrite save_row_attrs by done. unfold getattr. simpl.
        by rewrite lookup_insert_eq.
      * rewrite <- Hrev.
        match goal with |- context [revision_end ?st] =>
          destruct (revision_end_stored st (setattr saved.1 "published" (PBool true))
                      "draft" (LANGUAGE_CODE request)) as (Hr & _ & Hm & _) end.
        { simpl. apply elem_of_app. right. by apply list_elem_of_singleton. }
        { simpl. apply elem_of_app. right. by apply list_elem_of_singleton. }
        split; [exact Hm|exact Hr].
    + exists obj. split; [done|]. split; [done|]. split; [by left|].
      match goal with |- context [revision_end ?st] =>
        destruct (revision_end_stored st obj
                    "draft" (LANGUAGE_CODE request)) as (Hr & _ & Hm & _) end.
      { simpl. apply elem_of_app. right. by apply list_elem_of_singleton. }
      { simpl. apply elem_of_app. right. by apply list_elem_of_singleton. }
      split; [exact Hm|exact Hr].
Qed.

(** C8: a new object with a [published] attribute, saved by a user
    without the publish permission: the row that is written has
    [published] false, the instance handed to the revision has [published]
    true again, and so has the snapshot stored when the revision ends,
    while the table keeps the unpublished row. *)
Theorem save_model_new_object_unpublished (request : Request) (obj : Instance) (s : Store) :
  has_perm (user request) can_approve_for_publication = false →
  hasattr obj "published" = true →
  let result := save_model request obj false s in
  ∃ row obj',
    result.1 = inr obj' ∧
    db result.2 = (save_row (setattr obj "published" (PBool false)) (db s)).2 ∧
    row ∈ rows (db result.2) ∧
    getattr row "published" = Some (PBool false) ∧
    obj' = setattr row "published" (PBool true) ∧
    last (rs_objects (revision result.2)) = Some obj' ∧
    (∃ v, v ∈ versions (db (revision_end result.2)) ∧
          object_id v = unicode (pk obj') ∧ content_type v = cls obj' ∧
          field_dict v !! "published" = Some (PBool true)) ∧
    rows (db (revision_end result.2)) = rows (db result.2).
Proof.
  intros Hperm Hattr. cbn zeta. unfold save_model. rewrite Hperm, Hattr.
  unfold add_meta, set_comment, post_save_receiver, save. unfold_M.
  cbn [negb andb db revision rs_meta rs_comment rs_objects fst snd].
  set (saved := save_row (setattr obj "published" (PBool false)) (db s)).
  exists saved.1, (setattr saved.1 "published" (PBool true)).
  split; [done|]. split; [done|]. split; [apply save_row_stored|].
  split.
  { unfold saved. rewrite save_row_attrs by done. unfold getattr. simpl. by rewrite lookup_insert_eq. }
  split; [done|]. split; [by rewrite last_snoc|].
  match goal with |- context [revision_end ?st] =>
    destruct (revision_end_stored st (setattr saved.1 "published" (PBool true))
                "draft" (LANGUAGE_CODE request)) as (_ & Hv & _ & Hrows) end.
  { simpl. apply elem_of_app. right. by apply list_elem_of_singleton. }
  { simpl. apply elem_of_app. right. by apply list_elem_of_singleton. }
  split; [|exact Hrows].
  destruct Hv as (v & Hin & _ & Hoid & Hct & Hfd). exists v.
  split; [done|]. split; [done|]. split; [done|].
  rewrite Hfd. simpl. by rewrite lookup_insert_eq.
Qed.

(** ** Drafts and change_view *)

(** C3: for an object with a latest draft and no [current] flag in the
    context, [change_view] redirects a user without the publish permission
    to the publish view of that draft, and gives a user with the permission
    the normal change view. *)
Theorem change_view_latest_draft (self : EasyPublisher) (get_language : string)
    (request : Request) (oid : string)
    (extra_context : option dict) (d : DB) (latest_draft : Revision) :
  get_latest_draft self get_language d oid = Some latest_draft →
  truthy (default (PBool false) (default ∅ extra_context !! "current")) = false →
  change_view self get_language request oid extra_context d =
    if has_perm (user request) can_approve_for_publication
    then AdminChangeView oid
           (<["has_draft" := PInt (rev_id latest_draft)]> (default ∅ extra_context))
    else HttpResponseRedirect ("drafts/" +:+ pretty (rev_id latest_draft) +:+ "/").
Proof.
  intros Hdraft Hcurrent. unfold change_view. rewrite Hdraft.
  rewrite lookup_insert_ne by done. rewrite Hcurrent.
  by destruct (has_perm _ _).
Qed.

(** C10: the draft revisions of an object are the revisions with a
    version of the object and with draft metadata in the current language;
    [has_draft] is their number, non-zero exactly when there is one, and
    [get_latest_draft] is the last of them, [None] when there is none.
    The sequence lists the stored revisions in their order and none more
    often than it is stored: with distinct keys in the table each draft
    revision counts once, however many versions and metadata rows it
    has. *)
Theorem has_draft_latest_draft (self : EasyPublisher) (get_language : string)
    (d : DB) (oid : string) :
  let drafts := get_draft_revisions self get_language d oid in
  (∀ r, r ∈ drafts ↔
        r ∈ revisions d ∧
        (∃ v, v ∈ versions d ∧ ver_revision v = rev_id r ∧ object_id v = oid ∧
              content_type v = model self) ∧
        (∃ m, m ∈ metadata d ∧ md_revision m = rev_id r ∧ status m = "draft" ∧
              language m = get_language)) ∧
  has_draft self get_language d oid = length drafts ∧
  (has_draft self get_language d oid ≠ 0%nat ↔ ∃ r, r ∈ drafts) ∧
  get_latest_draft self get_language d oid = last drafts ∧
  drafts `sublist_of` revisions d ∧
  (NoDup (rev_id <$> revisions d) →
   NoDup (rev_id <$> drafts) ∧
   has_draft self get_language d oid
     = size (list_to_set (rev_id <$> drafts) : gset Z)).
Proof.
  cbn zeta.
  assert (Hsub : get_draft_revisions self get_language d oid `sublist_of` revisions d)
    by apply sublist_filter.
  split; [|split; [done|split; [|split; [|split; [exact Hsub|]]]]]; cycle 3.
  { intros Hnd.
    assert (NoDup (rev_id <$> get_draft_revisions self get_language d oid)) as Hnd'.
    { eapply sublist_NoDup; [exact Hnd|]. by apply fmap_sublist. }
    split; [exact Hnd'|]. unfold has_draft.
    by rewrite size_list_to_set, length_fmap. }
  - intros r. unfold get_draft_revisions. rewrite list_elem_of_filter, !Exists_exists.
    split.
    + intros [[(v & Hv & ?) (m & Hm & ?)] Hr]. eauto 10.
    + intros (Hr & (v & Hv & ?) & (m & Hm & ?)). eauto 10.
  - unfold has_draft. destruct (get_draft_revisions _ _ _ _) as [|r l]; simpl.
    + split; [done|]. by intros [r ?%elem_of_nil].
    + split; [|done]. intros _. exists r. apply elem_of_cons. by left.
  - unfold get_latest_draft, get_latest_draft_revision.
    rewrite last_lookup.
    destruct (get_draft_revisions _ _ _ _) as [|r l]; [done|].
    rewrite bool_decide_eq_true_2 by done. simpl. by rewrite Nat.sub_0_r.
Qed.

(** ** publish_view *)


(** C9: when the revision has no metadata for the language of the
    request, [publish_view] renders no form: it adds the message that no
    draft is available for that language, changes nothing else, and
    redirects to [../../current]. *)
Theorem publish_view_no_metadata (self : EasyPublisher) (save_m2m : Request → M unit)
    (request : Request) (oid revision_id : string)
    (extra_context : option dict) (s : Store) (key revision_key : Z)
    (obj : Instance) (version : Version) :
  int_of_text oid = Some key →
  filter (λ o, cls o = model self ∧ pk o = PInt key) (rows (db s)) = [obj] →
  int_of_text revision_id = Some revision_key →
  filter (λ v, ver_revision v = revision_key ∧
               object_id v = unicode (pk obj) ∧
               content_type v = cls obj) (versions (db s)) = [version] →
  filter (λ m, md_revision m = ver_revision version ∧
               language m = LANGUAGE_CODE request) (metadata (db s)) = [] →
  publish_view self save_m2m request oid revision_id extra_context s =
    (inr (HttpResponseRedirect "../../current"),
     mkStore (with_messages (db s)
                (messages (db s) ++
                 [(username (user request),
                   "There is no draft available for language " +:+ LANGUAGE_CODE request)]))
             no_revision).
Proof.
  intros Hkey Hobj Hrev Hver Hmd.
  unfold publish_view, commit_on_success, create_on_success, publish_view_body,
    key_of_text.
  unfold_M. cbn [db revision]. rewrite Hkey, Hobj. cbn [get_object_or_404]. unfold_M.
  cbn [db revision]. rewrite Hrev, Hver. cbn [get_object_or_404]. unfold_M.
  cbn [db revision]. rewrite Hmd. done.
Qed.

(** C7: a [publish_view] request either returns what the view under the
    revision decorator returns, with all of its writes, or raises and
    leaves the database as it was before the request. *)
Theorem publish_view_atomic (self : EasyPublisher) (save_m2m : Request → M unit)
    (request : Request) (oid revision_id : string)
    (extra_context : option dict) (s : Store) :
  let view := create_on_success
                (publish_view_body self save_m2m request oid revision_id extra_context) in
  let result := publish_view self save_m2m request oid revision_id extra_context s in
  match result.1 with
  | inl e => (view s).1 = inl e ∧ db result.2 = db s
  | inr response => result = view s
  end.
Proof.
  cbn zeta. unfold publish_view, commit_on_success.
  destruct (create_on_success _ s) as [[e|response] s']; simpl; done.
Qed.

(** ** update_draft *)

Lemma for_each_modify_db {A} (xs : list A) (f : A → DB → DB) (s : Store) :
  for_each xs (λ x, modify_db (f x)) s =
  (inr tt, mkStore (foldl (λ d x, f x d) (db s) xs) (revision s)).
Proof.
  revert s. induction xs as [|x xs IH]; intros s.
  - by destruct s.
  - simpl. unfold_M. cbn [db revision]. rewrite IH. done.
Qed.

Lemma metadata_save_fold (st : string) (L : list EasyPublisherMetaData) (d : DB) :
  NoDup (md_id <$> metadata d) → L ⊆ metadata d →
  foldl (λ d m, metadata_save (set_status st m) d) d L =
  with_metadata d ((λ x, if bool_decide (x ∈ L) then set_status st x else x)
                   <$> metadata d).
Proof.
  intros Hnd. induction L as [|m L IH] using rev_ind; intros Hsub.
  - simpl. destruct d; unfold with_metadata; simpl. f_equal.
    symmetry. apply list_fmap_id.
  - rewrite foldl_app. simpl. rewrite IH by set_solver.
    assert (Hm : m ∈ metadata d) by set_solver.
    unfold metadata_save. cbn [metadata with_metadata set_status md_id].
    rewrite (proj2 (existsb_exists _ _)); cycle 1.
    { exists (if bool_decide (m ∈ L) then set_status st m else m).
      split.
      - apply list_elem_of_In, list_elem_of_fmap. by exists m.
      - apply Z.eqb_eq. by case_bool_decide. }
    unfold with_metadata. cbn. f_equal.
    rewrite <- list_fmap_compose. apply list_fmap_ext.
    intros i x Hi. simpl.
    assert (Hid : md_id (if bool_decide (x ∈ L) then set_status st x else x) = md_id x)
      by by case_bool_decide.
    rewrite Hid.
    destruct (Z.eqb_spec (md_id x) (md_id m)) as [Heq|Hne].
    + assert (x = m) as ->.
      { apply list_elem_of_lookup in Hm as [j Hj].
        assert (i = j) as ->.
        { eapply NoDup_lookup; [exact Hnd| |]; rewrite list_lookup_fmap.
          - by rewrite Hi.
          - rewrite Hj. simpl. by rewrite Heq. }
        congruence. }
      rewrite (bool_decide_eq_true_2 (m ∈ L ++ [m])) by set_solver.
      by destruct m.
    + rewrite (bool_decide_ext (x ∈ L ++ [m]) (x ∈ L)); [done|].
      rewrite elem_of_app, list_elem_of_singleton. split; [intros [?|?]; congruence|by left].
Qed.

Lemma metadata_of_object_subseteq d version : metadata_of_object d version ⊆ metadata d.
Proof.
  intros x. unfold metadata_of_object. rewrite list_elem_of_bind.
  intros (m & Hx & Hm). apply list_elem_of_bind in Hx as (v & Hx & _).
  case_bool_decide; [|by apply elem_of_nil in Hx].
  apply list_elem_of_singleton in Hx. by subst.
Qed.

Lemma elem_of_metadata_of_object d version m :
  m ∈ metadata_of_object d version ↔
  m ∈ metadata d ∧
  ∃ v, v ∈ versions d ∧ ver_revision v = md_revision m ∧
       object_id v = object_id version ∧ content_type v = content_type version.
Proof.
  unfold metadata_of_object. rewrite list_elem_of_bind. split.
  - intros (m' & Hx & Hm). apply list_elem_of_bind in Hx as (v & Hx & Hv).
    case_bool_decide; [|by apply elem_of_nil in Hx].
    apply list_elem_of_singleton in Hx. subst. eauto.
  - intros (Hm & v & Hv & ?). exists m. split; [|done].
    apply list_elem_of_bind. exists v. split; [|done].
    rewrite bool_decide_eq_true_2 by done. by apply list_elem_of_singleton.
Qed.

(** X20: without the permission, [update_draft] marks the metadata of the
    revision as updated and leaves the other rows as they are. *)
Lemma update_draft_without_permission (version : Version) (request : Request) (s : Store) :
  has_perm (user request) can_approve_for_publication = false →
  NoDup (md_id <$> metadata (db s)) →
  update_draft version request s =
  (inr tt,
   mkStore (with_metadata (db s)
              ((λ m, if bool_decide (md_revision m = ver_revision version)
                     then set_status "updated" m else m) <$> metadata (db s)))
           (revision s)).
Proof.
  intros Hperm Hnd. unfold update_draft. rewrite Hperm.
  unfold mbind at 1. unfold M_bind, bind, get_db.
  etrans; [apply (for_each_modify_db _ (λ m, metadata_save (set_status "updated" m)))|].
  rewrite metadata_save_fold; [|done|].
  - do 3 f_equal. apply list_fmap_ext. intros i m Hi.
    apply list_elem_of_lookup_2 in Hi.
    destruct (decide (md_revision m = ver_revision version)) as [Hm|Hm].
    + rewrite !bool_decide_eq_true_2; [done|done|]. by apply list_elem_of_filter.
    + rewrite !bool_decide_eq_false_2; [done|done|].
      by intros [? _]%list_elem_of_filter.
  - intros m [_ ?]%list_elem_of_filter. done.
Qed.

(** X21: with the permission and a single metadata row in the revision,
    that row ends as published and the other rows of the object as
    declined. *)
Lemma update_draft_single_metadata (version : Version) (request : Request) (s : Store)
    (m : EasyPublisherMetaData) :
  has_perm (user request) can_approve_for_publication = true →
  NoDup (md_id <$> metadata (db s)) →
  filter (λ m, md_revision m = ver_revision version) (metadata (db s)) = [m] →
  update_draft version request s =
  (inr tt,
   mkStore (with_metadata (db s)
              ((λ x, if bool_decide (x = m) then set_status "published" x
                     else if bool_decide (x ∈ metadata_of_object (db s) version)
                          then set_status "declined" x else x) <$> metadata (db s)))
           (revision s)).
Proof.
  intros Hperm Hnd Hone. unfold update_draft. rewrite Hperm.
  unfold mbind at 1. unfold M_bind, bind, get_db. rewrite Hone.
  cbn [for_each]. unfold_M.
  rewrite (for_each_modify_db _ (λ other, metadata_save (set_status "declined" other))).
  cbn [db revision]. rewrite metadata_save_fold by (done || apply metadata_of_object_subseteq).
  assert (Hm : m ∈ metadata (db s)).
  { assert (m ∈ [m]) as Hin by (by apply list_elem_of_singleton).
    rewrite <- Hone in Hin. by apply list_elem_of_filter in Hin as [_ ?]. }
  f_equal. f_equal. unfold metadata_save. cbn [metadata with_metadata set_status md_id].
  rewrite (proj2 (existsb_exists _ _)); cycle 1.
  { eexists. split.
    - apply list_elem_of_In, list_elem_of_fmap. by exists m.
    - apply Z.eqb_eq. by case_bool_decide. }
  unfold with_metadata. cbn. f_equal.
  rewrite <- list_fmap_compose. apply list_fmap_ext. intros i x Hi. simpl.
  assert (Hid : md_id (if bool_decide (x ∈ metadata_of_object (db s) version)
                       then set_status "declined" x else x) = md_id x)
    by by case_bool_decide.
  rewrite Hid.
  destruct (Z.eqb_spec (md_id x) (md_id m)) as [Heq|Hne].
  - assert (x = m) as ->.
    { apply list_elem_of_lookup in Hm as [j Hj].
      assert (i = j) as ->.
      { eapply NoDup_lookup; [exact Hnd| |]; rewrite list_lookup_fmap.
        - by rewrite Hi.
        - rewrite Hj. simpl. by rewrite Heq. }
      congruence. }
    rewrite bool_decide_eq_true_2 by done. by destruct m.
  - rewrite (bool_decide_eq_false_2 (x = m)); [done|]. by intros ->.
Qed.

(** C2 (the code departs from the claim): the editor's draft of the
    scenario has two metadata rows, one from [save_model] and one from
    [save_formset].  When a user with the publish permission runs
    [update_draft] on it, the turn for the second row declines the first
    row again: the first row ends as declined, only the last as
    published. *)
Theorem update_draft_declines_sibling_metadata :
  let s := mkStore Scenario.draft_db no_revision in
  let request := Scenario.posted Scenario.chief in
  has_perm (user request) can_approve_for_publication = true ∧
  filter (λ m, md_revision m = ver_revision Scenario.article_version)
         (metadata (db s)) =
    [mkMetaData 1 1 "draft" "en"; mkMetaData 2 1 "draft" "en"] ∧
  metadata (db (update_draft Scenario.article_version request s).2) =
    [mkMetaData 1 1 "declined" "en"; mkMetaData 2 1 "published" "en"].
Proof. cbn zeta. repeat split; vm_compute; reflexivity. Qed.

(** ** The scenario, evaluated *)

(** The draft of the scenario is what the code stores for the editor. *)
Lemma editor_draft_is_draft_db :
  Scenario.editor_saves_draft (mkStore Scenario.live_db no_revision) =
  (inr tt, mkStore Scenario.draft_db no_revision).
Proof. vm_compute. reflexivity. Qed.

(** The same through [publish_view]: the chief publishes the draft. *)
Lemma publish_view_declines_sibling_metadata :
  metadata (db (publish_view Scenario.admin Scenario.save_m2m_ok
                  (Scenario.posted Scenario.chief) "1" "1" None
                  (mkStore Scenario.draft_db no_revision)).2) =
  [mkMetaData 1 1 "declined" "en"; mkMetaData 2 1 "published" "en"].
Proof. vm_compute. reflexivity. Qed.

(** Without the permission both rows end as updated. *)
Lemma update_draft_editor_updates :
  status <$> metadata (db (update_draft Scenario.article_version
                             (Scenario.posted Scenario.editor)
                             (mkStore Scenario.draft_db no_revision)).2) =
  ["updated"; "updated"].
Proof. vm_compute. reflexivity. Qed.

(** A [save_m2m] that raises after [save_model] wrote the article: the
    view alone leaves the new row behind, [publish_view] does not. *)
Lemma publish_view_rolls_back :
  let s := mkStore Scenario.draft_db no_revision in
  let request := Scenario.posted Scenario.chief in
  rows (db (create_on_success
              (publish_view_body Scenario.admin Scenario.save_m2m_raises
                 request "1" "1" None) s).2) =
    [Scenario.edited_article; Scenario.comment] ∧
  publish_view Scenario.admin Scenario.save_m2m_raises request "1" "1" None s =
    (inl (Raised "IntegrityError"), s).
Proof. cbn zeta. split; vm_compute; reflexivity. Qed.


(** The related versions of the article in a revision with two snapshots
    of comment 5 and a snapshot of an unsaved comment, before and after
    lines 376-377. *)
Lemma related_versions_scenario :
  match related_versions_of "Comment" "article" (PInt 1) Scenario.comment_versions with
  | inr l => Some (l, dedup_related_versions l)
  | inl _ => None
  end =
  Some ([("5", 0%nat); ("None", 1%nat); ("5", 2%nat)],
        [("None", 1%nat); ("5", 2%nat)]).
Proof. vm_compute. reflexivity. Qed.

(** The rows of the comment formset for a revision with two snapshots of
    comment 5 and a snapshot of an unsaved comment: the live comment 5 gets
    the later snapshot, which has lost its key ["id"]; the live comment 6
    is marked for deletion; the unsaved comment is appended. *)
Lemma formset_initial_scenario :
  match formset_initial "Comment" "article" (PInt 1)
          [Scenario.comment; Scenario.other_comment] Scenario.comment_versions with
  | inr r => Some (map (λ row, map_to_list (row_dict r.1 row)) r.2)
  | inl _ => None
  end =
  Some [ [("article", PInt 1); ("text", PStr "Second")];
         [("id", PInt 6); ("article", PInt 1); ("text", PStr "Other");
          ("DELETE", PBool true)];
         [("article", PInt 1); ("text", PStr "Unsaved")] ].
Proof. vm_compute. reflexivity. Qed.

(** ** The theorems at the scenario *)

Lemma change_view_latest_draft_witness :
  change_view Scenario.admin "en" (Scenario.viewing Scenario.editor "en") "1" None
    Scenario.draft_db = HttpResponseRedirect "drafts/1/" ∧
  change_view Scenario.admin "en" (Scenario.viewing Scenario.chief "en") "1" None
    Scenario.draft_db = AdminChangeView "1" {["has_draft" := PInt 1]}.
Proof.
  split.
  - etrans; [apply (change_view_latest_draft Scenario.admin "en"
                      (Scenario.viewing Scenario.editor "en") "1" None
                      Scenario.draft_db (mkRevision 1 "Draft"));
             vm_compute; reflexivity|].
    vm_compute. reflexivity.
  - etrans; [apply (change_view_latest_draft Scenario.admin "en"
                      (Scenario.viewing Scenario.chief "en") "1" None
                      Scenario.draft_db (mkRevision 1 "Draft"));
             vm_compute; reflexivity|].
    vm_compute. reflexivity.
Defined.

Lemma render_revision_form_merge_witness :
  (merge_initial Scenario.comment_versions [("None", 1%nat); ("5", 2%nat)]
     [Scenario.comment; Scenario.other_comment]).2 !! 0%nat = Some (RowVersion 2) ∧
  current_field_dict
    (merge_initial Scenario.comment_versions [("None", 1%nat); ("5", 2%nat)]
       [Scenario.comment; Scenario.other_comment]).1 1 =
  <["article" := PInt 1]> (<["text" := PStr "Unsaved"]> ∅).
Proof.
  pose proof (render_revision_form_merge Scenario.comment_versions
                [("None", 1%nat); ("5", 2%nat)]
                [Scenario.comment; Scenario.other_comment]) as (Hlive & _ & Hall & _).
  split.
  - etrans; [apply (Hlive 0%nat Scenario.comment); reflexivity|].
    vm_compute. reflexivity.
  - etrans; [apply (Hall "None" 1%nat); vm_compute; apply list_elem_of_here|].
    vm_compute. reflexivity.
Defined.


Lemma save_model_new_object_unpublished_witness :
  let result := save_model (Scenario.posted Scenario.editor) Scenario.new_article false
                  (mkStore Scenario.live_db no_revision) in
  ∃ row obj',
    result.1 = inr obj' ∧
    db result.2 = (save_row (setattr Scenario.new_article "published" (PBool false))
                            Scenario.live_db).2 ∧
    row ∈ rows (db result.2) ∧
    getattr row "published" = Some (PBool false) ∧
    obj' = setattr row "published" (PBool true) ∧
    last (rs_objects (revision result.2)) = Some obj' ∧
    (∃ v, v ∈ versions (db (revision_end result.2)) ∧
          object_id v = unicode (pk obj') ∧ content_type v = cls obj' ∧
          field_dict v !! "published" = Some (PBool true)) ∧
    rows (db (revision_end result.2)) = rows (db result.2).
Proof.
  apply (save_model_new_object_unpublished (Scenario.posted Scenario.editor)
           Scenario.new_article (mkStore Scenario.live_db no_revision));
    vm_compute; reflexivity.
Defined.

Lemma publish_view_no_metadata_witness :
  publish_view Scenario.admin Scenario.save_m2m_ok
    (Scenario.viewing Scenario.editor "fr") "1" "1" None
    (mkStore Scenario.draft_db no_revision) =
  (inr (HttpResponseRedirect "../../current"),
   mkStore (with_messages Scenario.draft_db
              [("editor", "There is no draft available for language fr")])
           no_revision).
Proof.
  etrans; [apply (publish_view_no_metadata Scenario.admin Scenario.save_m2m_ok
                    (Scenario.viewing Scenario.editor "fr") "1" "1" None
                    (mkStore Scenario.draft_db no_revision)
                    1 1 Scenario.article Scenario.article_version);
           vm_compute; reflexivity|].
  vm_compute. reflexivity.
Defined.

(* ===================================================================== *)
(** * Further properties *)
(* ===================================================================== *)

Lemma py_eq_sym a b : py_eq a b = py_eq b a.
Proof.
  destruct a as [|x|x|x], b as [|y|y|y]; simpl; try done.
  - apply bool_decide_ext. naive_solver.
  - apply Z.eqb_sym.
  - apply bool_decide_ext. naive_solver.
Qed.

Lemma _eq_true_iff self obj :
  _eq self obj = inr true ↔
  attrs self ≠ ∅ ∧
  ∀ name a, getattr self name = Some a →
            ∃ b, getattr obj name = Some b ∧ py_eq a b = true.
Proof.
  unfold _eq. case_bool_decide as Hnames.
  - split; [done|]. intros [Hne _]. destruct Hne.
    apply map_to_list_empty_iff. by apply fmap_nil_inv in Hnames.
  - assert (attrs self ≠ ∅) as Hne.
    { intros Hempty. apply Hnames. by rewrite Hempty, map_to_list_empty. }
    split.
    + intros [= Hall]. split; [done|]. intros name a Ha.
      rewrite forallb_forall in Hall. specialize (Hall name).
      rewrite Ha in Hall. destruct (getattr obj name) as [b|].
      * exists b. split; [done|]. apply Hall.
        apply list_elem_of_In, list_elem_of_fmap. exists (name, a).
        split; [done|]. by apply elem_of_map_to_list.
      * discriminate Hall.
        apply list_elem_of_In, list_elem_of_fmap. exists (name, a).
        split; [done|]. by apply elem_of_map_to_list.
    + intros [_ Hall]. f_equal. apply forallb_forall. intros name Hin.
      apply list_elem_of_In, list_elem_of_fmap in Hin as ([name' a] & -> & Hin).
      apply elem_of_map_to_list in Hin. simpl. unfold getattr in *.
      rewrite Hin. destruct (Hall name' a Hin) as (b & -> & ?). done.
Qed.

Lemma _eq_no_fields self obj :
  attrs self = ∅ → _eq self obj = inl (Raised "has no fields or hides them very well").
Proof. intros Hempty. unfold _eq. by rewrite Hempty, map_to_list_empty. Qed.

Lemma _eq_returns self obj : attrs self ≠ ∅ → ∃ result, _eq self obj = inr result.
Proof.
  intros Hne. unfold _eq. case_bool_decide as Hnames; [|eauto].
  destruct Hne. apply map_to_list_empty_iff. by apply fmap_nil_inv in Hnames.
Qed.

(** X1: [_eq] raises for an instance without fields, and otherwise
    returns a boolean that is true exactly when every field of [self]
    exists on [obj] with a value that compares equal. *)
Theorem _eq_spec (self obj : Instance) :
  (attrs self = ∅ →
     _eq self obj = inl (Raised "has no fields or hides them very well")) ∧
  (attrs self ≠ ∅ →
     ∃ result, _eq self obj = inr result ∧
       (result = true ↔
        ∀ name a, getattr self name = Some a →
                  ∃ b, getattr obj name = Some b ∧ py_eq a b = true)).
Proof.
  split; [apply _eq_no_fields|].
  intros Hne. destruct (_eq_returns self obj Hne) as [result Heq].
  exists result. split; [done|]. split.
  - intros ->. by apply _eq_true_iff in Heq as [_ ?].
  - intros Hall.
    assert (_eq self obj = inr true) as Ht by (by apply _eq_true_iff).
    congruence.
Qed.

(** X2: on two instances with the same field names [_eq] does not depend
    on the order of its arguments. *)
Theorem _eq_same_fields (a b : Instance) :
  dom (attrs a) = dom (attrs b) → _eq a b = _eq b a.
Proof.
  intros Hdom.
  assert (Hempty : attrs a = ∅ ↔ attrs b = ∅).
  { rewrite <- !dom_empty_iff_L. by rewrite Hdom. }
  destruct (decide (attrs a = ∅)) as [Ha|Ha].
  - assert (attrs b = ∅) as Hb by (by apply Hempty).
    by rewrite !_eq_no_fields.
  - assert (attrs b ≠ ∅) as Hb by (by rewrite <- Hempty).
    assert (Hdir : ∀ x y, dom (attrs x) = dom (attrs y) → attrs x ≠ ∅ → attrs y ≠ ∅ →
                    _eq x y = inr true → _eq y x = inr true).
    { intros x y Hxy Hx Hy Heq. apply _eq_true_iff in Heq as [_ Hall].
      apply _eq_true_iff.
      split; [done|]. intros name v Hv. unfold getattr in *.
      assert (is_Some (attrs x !! name)) as [w Hw].
      { apply elem_of_dom. rewrite Hxy. apply elem_of_dom. eauto. }
      exists w. split; [done|]. destruct (Hall name w Hw) as (v' & Hv' & Hvw).
      rewrite py_eq_sym. congruence. }
    destruct (_eq_returns a b Ha) as [rab Hab].
    destruct (_eq_returns b a Hb) as [rba Hba].
    rewrite Hab, Hba. f_equal. destruct rab, rba; try done.
    + apply Hdir in Hab; [congruence|done..].
    + apply Hdir in Hba; [congruence|done..].
Qed.

(** ** save_formset *)

Lemma for_each_post_save_receiver (instances : list Instance) (s : Store) :
  for_each instances post_save_receiver s =
  (inr tt, mkStore (db s)
             (mkRevisionState (rs_meta (revision s)) (rs_comment (revision s))
                              (rs_objects (revision s) ++ instances))).
Proof.
  revert s. induction instances as [|i instances IH]; intros s.
  - simpl. rewrite app_nil_r. by destruct s as [d []].
  - simpl. unfold_M. unfold post_save_receiver at 1. unfold_M.
    rewrite IH. cbn [db revision rs_meta rs_comment rs_objects].
    by rewrite <- app_assoc.
Qed.

Lemma for_each_delete_obj (objs : list Instance) (s : Store) :
  for_each objs delete_obj s =
  (inr tt, mkStore (foldl (λ d o, delete_row o d) (db s) objs) (revision s)).
Proof. apply (for_each_modify_db objs delete_row). Qed.

Lemma delete_rows_tables (objs : list Instance) (d : DB) :
  let d' := foldl (λ d o, delete_row o d) d objs in
  rows d' `sublist_of` rows d ∧ revisions d' = revisions d ∧
  versions d' = versions d ∧ metadata d' = metadata d ∧
  messages d' = messages d ∧ admin_log d' = admin_log d.
Proof.
  cbn zeta. revert d. induction objs as [|o objs IH]; intros d; [done|].
  simpl. destruct (IH (delete_row o d)) as (Hrows & ? & ? & ? & ? & ?).
  split; [|done]. etrans; [exact Hrows|]. apply sublist_filter.
Qed.

Lemma formset_save_draft (formset : PostedFormSet) (s : Store) :
  formset_save formset false s =
  (inr (fs_instances formset),
   mkStore (foldl (λ d o, delete_row o d) (db s) (fs_deleted formset)) (revision s)).
Proof. unfold formset_save. unfold_M. by rewrite for_each_delete_obj. Qed.

Lemma save_formset_draft (request : Request) (formset : PostedFormSet)
    (change : bool) (s : Store) :
  has_perm (user request) can_approve_for_publication = false →
  save_formset request formset change s =
  (inr tt,
   mkStore (foldl (λ d o, delete_row o d) (db s) (fs_deleted formset))
     (mkRevisionState (rs_meta (revision s) ++ [("draft", LANGUAGE_CODE request)])
                      (rs_comment (revision s))
                      (rs_objects (revision s) ++ fs_instances formset))).
Proof.
  intros Hperm. unfold save_formset. rewrite Hperm.
  unfold add_meta. unfold_M. rewrite formset_save_draft.
  cbn [fst snd]. by rewrite for_each_post_save_receiver.
Qed.

(** X3: without the publish permission [save_formset] saves no instance:
    no row is added or changed, and with no form marked for deletion the
    database is as before.  The revision under construction gains the
    metadata (draft, language of the request); its objects afterwards are
    the objects from before and the instances of the formset. *)
Theorem save_formset_without_permission (request : Request) (formset : PostedFormSet)
    (change : bool) (s : Store) :
  has_perm (user request) can_approve_for_publication = false →
  let result := save_formset request formset change s in
  let d' := db result.2 in
  result.1 = inr tt ∧
  rows d' `sublist_of` rows (db s) ∧ revisions d' = revisions (db s) ∧
  versions d' = versions (db s) ∧ metadata d' = metadata (db s) ∧
  messages d' = messages (db s) ∧ admin_log d' = admin_log (db s) ∧
  (fs_deleted formset = [] → d' = db s) ∧
  rs_meta (revision result.2)
    = rs_meta (revision s) ++ [("draft", LANGUAGE_CODE request)] ∧
  rs_comment (revision result.2) = rs_comment (revision s) ∧
  (∀ o, o ∈ rs_objects (revision result.2) ↔
        o ∈ rs_objects (revision s) ∨ o ∈ fs_instances formset).
Proof.
  intros Hperm. cbn zeta. rewrite save_formset_draft by done.
  cbn [fst snd db revision rs_meta rs_comment rs_objects].
  destruct (delete_rows_tables (fs_deleted formset) (db s)) as (? & ? & ? & ? & ? & ?).
  repeat split; try done.
  - by intros ->.
  - by intros ?%elem_of_app.
  - intros ?. by apply elem_of_app.
Qed.

(** ** The two draft queries *)

Lemma elem_of_get_draft_revisions_versions (self : EasyPublisher) (get_language : string)
    (d : DB) (oid : string) (r : Revision) :
  r ∈ get_draft_revisions self get_language d oid ↔
  r ∈ revisions d ∧
  ∃ v, v ∈ get_draft_versions self get_language d oid ∧ ver_revision v = rev_id r.
Proof.
  unfold get_draft_revisions, get_draft_versions.
  rewrite list_elem_of_filter, !Exists_exists. split.
  - intros [[(v & Hv & Hr & Ho & Hc) (m & Hm & Hmr & Hs & Hl)] Hin].
    split; [done|]. exists v. split; [|done].
    apply list_elem_of_filter. split; [|done]. split; [|done].
    apply Exists_exists. exists m. rewrite Hr. done.
  - intros (Hin & v & Hv & Hr). apply list_elem_of_filter in Hv as [[Hex [Ho Hc]] Hv].
    apply Exists_exists in Hex as (m & Hm & Hmr & Hs & Hl).
    split; [|done]. split; [exists v|exists m]; rewrite <- ?Hr; done.
Qed.

(** X5: the draft revisions of an object are the stored revisions that
    hold one of its draft versions; when every version points to a stored
    revision, [has_draft] is non-zero exactly when [get_draft_versions]
    finds a version. *)
Theorem draft_versions_of_draft_revisions (self : EasyPublisher) (get_language : string)
    (d : DB) (oid : string) :
  (∀ r, r ∈ get_draft_revisions self get_language d oid ↔
        r ∈ revisions d ∧
        ∃ v, v ∈ get_draft_versions self get_language d oid ∧
             ver_revision v = rev_id r) ∧
  ((∀ v, v ∈ versions d → ∃ r, r ∈ revisions d ∧ rev_id r = ver_revision v) →
   (has_draft self get_language d oid ≠ 0%nat ↔
    get_draft_versions self get_language d oid ≠ [])).
Proof.
  pose proof (elem_of_get_draft_revisions_versions self get_language d oid) as Hiff.
  split; [exact Hiff|]. intros Hfk. unfold has_draft.
  assert (Hsome : ∀ {A} (l : list A), l ≠ [] → ∃ x, x ∈ l).
  { intros A [|x l] Hl; [done|]. exists x. apply list_elem_of_here. }
  split.
  - intros Hlen Hnil.
    destruct (Hsome _ (get_draft_revisions self get_language d oid)) as [r Hr].
    { intros Hl. by rewrite Hl in Hlen. }
    apply Hiff in Hr as (_ & v & Hv & _).
    rewrite Hnil in Hv. by apply elem_of_nil in Hv.
  - intros Hne. destruct (Hsome _ _ Hne) as [v Hv].
    assert (v ∈ versions d) as Hvd.
    { unfold get_draft_versions in Hv. by apply list_elem_of_filter in Hv as [_ ?]. }
    destruct (Hfk v Hvd) as (r & Hr & Hrv).
    assert (r ∈ get_draft_revisions self get_language d oid) as Hin.
    { apply Hiff. split; [done|]. exists v. done. }
    intros Hlen. apply nil_length_inv in Hlen. rewrite Hlen in Hin.
    by apply elem_of_nil in Hin.
Qed.

(** ** change_view *)

Lemma change_view_redirect_cases (self : EasyPublisher) (get_language : string)
    (request : Request) (oid : string) (extra_context : option dict) (d : DB)
    (url : string) :
  change_view self get_language request oid extra_context d = HttpResponseRedirect url ↔
  ∃ latest_draft,
    get_latest_draft self get_language d oid = Some latest_draft ∧
    truthy (default (PBool false) (default ∅ extra_context !! "current")) = false ∧
    has_perm (user request) can_approve_for_publication = false ∧
    url = "drafts/" +:+ pretty (rev_id latest_draft) +:+ "/".
Proof.
  unfold change_view.
  destruct (get_latest_draft self get_language d oid) as [draft|].
  - rewrite lookup_insert_ne by done.
    destruct (truthy _) eqn:Hcur, (has_perm _ _) eqn:Hperm; simpl.
    all: split; [try done|intros (x & [= <-] & ? & ? & ?); try done].
    + intros [= <-]. eauto.
    + by subst.
  - split; [done|]. by intros (x & ? & _).
Qed.

(** X6: for a user with the publish permission, or when the context asks
    for the current object, or when the object has no draft, [change_view]
    shows the change view of the parent class for the same object; the
    context is the caller's, with [has_draft] set to the key of the latest
    draft when there is one. *)
Theorem change_view_shows_change_form (self : EasyPublisher) (get_language : string)
    (request : Request) (oid : string) (extra_context : option dict) (d : DB) :
  has_perm (user request) can_approve_for_publication = true ∨
  truthy (default (PBool false) (default ∅ extra_context !! "current")) = true ∨
  get_latest_draft self get_language d oid = None →
  ∃ context,
    change_view self get_language request oid extra_context d
      = AdminChangeView oid context ∧
    (∀ key, key ≠ "has_draft" → context !! key = default ∅ extra_context !! key) ∧
    context !! "has_draft" =
      match get_latest_draft self get_language d oid with
      | Some latest_draft => Some (PInt (rev_id latest_draft))
      | None => default ∅ extra_context !! "has_draft"
      end.
Proof.
  intros Hcase. unfold change_view.
  destruct (get_latest_draft self get_language d oid) as [draft|].
  - exists (<["has_draft" := PInt (rev_id draft)]> (default ∅ extra_context)).
    split; [|split].
    + rewrite lookup_insert_ne by done.
      destruct Hcase as [->|[->|?]]; [by rewrite andb_false_r|done|done].
    + intros key Hkey. by rewrite lookup_insert_ne.
    + by rewrite lookup_insert_eq.
  - exists (default ∅ extra_context). done.
Qed.

(** ** The manager of published rows *)

(** X7: when a user without the publish permission saves an object, no
    row that was not already visible through the manager of published
    rows becomes visible through it. *)
Theorem save_model_draft_not_public (request : Request) (obj : Instance)
    (change : bool) (s : Store) (model_cls : string) :
  has_perm (user request) can_approve_for_publication = false →
  ∀ o, o ∈ get_query_set model_cls (db (save_model request obj change s).2) →
       o ∈ get_query_set model_cls (db s).
Proof.
  intros Hperm o. unfold get_query_set. rewrite !list_elem_of_filter.
  intros (Hpub & Hcls & Hrow). split; [done|]. split; [done|].
  revert Hrow. unfold save_model. rewrite Hperm.
  unfold add_meta, set_comment, post_save_receiver, save. unfold_M.
  cbn [db revision rs_meta rs_comment rs_objects fst snd].
  destruct (negb change && hasattr obj "published");
    cbn [db revision rs_meta rs_comment rs_objects fst snd]; [|done].
  intros [Hrow| ->]%save_row_rows; [done|].
  rewrite save_row_attrs in Hpub by done. unfold getattr in Hpub. simpl in Hpub.
  rewrite lookup_insert_eq in Hpub. done.
Qed.

(** ** polls: the index view *)

(** X8: the index view of the polls lists five questions, or all when
    there are fewer, in descending order of publication date, and no
    question left out is newer than a listed one. *)
Theorem get_queryset_latest_five (Question : Type) (pub_date : Question → Z)
    (questions : list Question) :
  let result := Polls.get_queryset Question pub_date questions in
  length result = Nat.min 5 (length questions) ∧
  StronglySorted (Polls.newer_first Question pub_date) result ∧
  ∃ rest, result ++ rest ≡ₚ questions ∧
          ∀ a b, a ∈ result → b ∈ rest → pub_date b ≤ pub_date a.
Proof.
  cbn zeta. unfold Polls.get_queryset.
  pose proof (merge_sort_Permutation (Polls.newer_first Question pub_date) questions)
    as Hperm.
  pose proof (StronglySorted_merge_sort (Polls.newer_first Question pub_date) questions)
    as Hsorted.
  set (sorted := merge_sort (Polls.newer_first Question pub_date) questions) in *.
  split; [|split].
  - rewrite length_take, <- (Permutation_length Hperm). done.
  - rewrite <- (take_drop 5 sorted) in Hsorted.
    by apply StronglySorted_app_1_l in Hsorted.
  - exists (drop 5 sorted). split; [by rewrite take_drop|].
    intros a b Ha Hb. rewrite <- (take_drop 5 sorted) in Hsorted.
    by apply (StronglySorted_app_1_elem_of (Polls.newer_first Question pub_date)
                _ _ a b Hsorted).
Qed.

(** ** update_draft changes nothing but statuses *)

Lemma for_each_fold {A} (xs : list A) (body : A → M unit) (g : A → DB → DB) (s : Store) :
  (∀ x s, body x s = (inr tt, mkStore (g x (db s)) (revision s))) →
  for_each xs body s = (inr tt, mkStore (foldl (λ d x, g x d) (db s) xs) (revision s)).
Proof.
  intros Hbody. revert s. induction xs as [|x xs IH]; intros s.
  - by destruct s.
  - simpl. unfold_M. rewrite Hbody, IH. done.
Qed.

Lemma update_draft_fold (version : Version) (request : Request) (s : Store) :
  update_draft version request s =
  (inr tt,
   mkStore (foldl (λ d m, update_draft_turn version request m d) (db s)
              (filter (λ m, md_revision m = ver_revision version) (metadata (db s))))
           (revision s)).
Proof.
  unfold update_draft. unfold mbind at 1. unfold M_bind, bind, get_db.
  apply for_each_fold. intros m s'. unfold update_draft_turn.
  destruct (has_perm _ _).
  - unfold_M.
    rewrite (for_each_modify_db _ (λ other, metadata_save (set_status "declined" other))).
    done.
  - done.
Qed.

Lemma metadata_save_status_updated (d0 : list EasyPublisherMetaData) (d : DB)
    (m m0 : EasyPublisherMetaData) (st : string) :
  NoDup (md_id <$> d0) →
  Forall2 status_updated (metadata d) d0 →
  m0 ∈ d0 → md_id m = md_id m0 → md_revision m = md_revision m0 →
  language m = language m0 →
  st ∈ ["published"; "declined"; "updated"] →
  let d' := metadata_save (set_status st m) d in
  Forall2 status_updated (metadata d') d0 ∧
  rows d' = rows d ∧ revisions d' = revisions d ∧ versions d' = versions d ∧
  messages d' = messages d ∧ admin_log d' = admin_log d.
Proof.
  intros Hnd Hall Hm0 Hid Hrev Hlang Hst. cbn zeta.
  split; [|done]. unfold metadata_save. cbn [metadata with_metadata set_status md_id].
  assert (Hex : existsb (λ x, md_id x =? md_id m) (metadata d) = true).
  { apply list_elem_of_lookup in Hm0 as [i Hi].
    destruct (Forall2_lookup_r _ _ _ _ _ Hall Hi) as (x & Hx & Hxm).
    apply existsb_exists. exists x. split; [apply list_elem_of_In; eapply list_elem_of_lookup_2; exact Hx|].
    apply Z.eqb_eq. destruct Hxm as (? & _). congruence. }
  rewrite Hex. apply Forall2_fmap_l.
  apply Forall2_same_length_lookup. split; [by eapply Forall2_length|].
  intros i x y Hx Hy. pose proof (Forall2_lookup_lr _ _ _ _ _ _ Hall Hx Hy) as Hxy.
  simpl. destruct (Z.eqb_spec (md_id x) (md_id m)) as [Heq|Hne]; [|exact Hxy].
  assert (y = m0) as ->.
  { apply list_elem_of_lookup in Hm0 as [j Hj].
    assert (i = j) as ->; [|congruence].
    eapply NoDup_lookup; [exact Hnd| |]; rewrite list_lookup_fmap.
    - by rewrite Hy.
    - rewrite Hj. simpl. destruct Hxy as (? & _). congruence. }
  unfold status_updated. simpl. by auto.
Qed.

Lemma status_updated_elem_of (d0 l : list EasyPublisherMetaData) (m : EasyPublisherMetaData) :
  Forall2 status_updated l d0 → m ∈ l →
  ∃ m0, m0 ∈ d0 ∧ md_id m = md_id m0 ∧ md_revision m = md_revision m0 ∧
        language m = language m0.
Proof.
  intros Hall [i Hi]%list_elem_of_lookup.
  destruct (Forall2_lookup_l _ _ _ _ _ Hall Hi) as (m0 & Hm0 & (? & ? & ? & _)).
  exists m0. split; [by eapply list_elem_of_lookup_2|done].
Qed.

Lemma status_updated_refl (l : list EasyPublisherMetaData) : Forall2 status_updated l l.
Proof. apply Forall_Forall2_diag, Forall_forall. intros x _. unfold status_updated. auto. Qed.

Lemma metadata_save_all_status_updated (d0 : DB) (st : string)
    (saved : list EasyPublisherMetaData) (d : DB) :
  NoDup (md_id <$> metadata d0) →
  st ∈ ["published"; "declined"; "updated"] →
  (∀ m, m ∈ saved → ∃ m0, m0 ∈ metadata d0 ∧ md_id m = md_id m0 ∧
                          md_revision m = md_revision m0 ∧ language m = language m0) →
  only_statuses_changed d0 d →
  only_statuses_changed d0 (foldl (λ d m, metadata_save (set_status st m) d) d saved).
Proof.
  intros Hnd Hst. revert d. induction saved as [|m saved IH]; intros d Hsaved Hinv; [done|].
  simpl. apply IH.
  - intros m' Hm'. apply Hsaved. by apply list_elem_of_further.
  - destruct (Hsaved m) as (m0 & Hm0 & Hid & Hrev & Hlang); [apply list_elem_of_here|].
    destruct Hinv as (Hall & Hrows & Hrevs & Hvers & Hmsg & Hlog).
    pose proof (metadata_save_status_updated (metadata d0) d m m0 st
                  Hnd Hall Hm0 Hid Hrev Hlang Hst) as (Hall' & ? & ? & ? & ? & ?).
    unfold only_statuses_changed. repeat split; congruence.
Qed.

Lemma update_draft_turns_only_statuses (d0 : DB) (version : Version) (request : Request)
    (turns : list EasyPublisherMetaData) (d : DB) :
  NoDup (md_id <$> metadata d0) →
  (∀ m, m ∈ turns → m ∈ metadata d0) →
  only_statuses_changed d0 d →
  only_statuses_changed d0 (foldl (λ d m, update_draft_turn version request m d) d turns).
Proof.
  intros Hnd. revert d. induction turns as [|m turns IH]; intros d Hturns Hinv; [done|].
  simpl. apply IH.
  { intros m' Hm'. apply Hturns. by apply list_elem_of_further. }
  assert (Hm : ∃ m0, m0 ∈ metadata d0 ∧ md_id m = md_id m0 ∧
                     md_revision m = md_revision m0 ∧ language m = language m0).
  { exists m. split; [apply Hturns, list_elem_of_here|done]. }
  unfold update_draft_turn. destruct (has_perm _ _).
  - apply (metadata_save_all_status_updated d0 "published" [m]); try done.
    + solve_elem_of.
    + intros m' ->%list_elem_of_singleton. done.
    + apply metadata_save_all_status_updated; try done; [solve_elem_of|].
      intros o Ho. apply metadata_of_object_subseteq in Ho.
      destruct Hinv as (Hall & _). by eapply status_updated_elem_of.
  - apply (metadata_save_all_status_updated d0 "updated" [m]); try done.
    + solve_elem_of.
    + intros m' ->%list_elem_of_singleton. done.
Qed.

(** X9: when the ids of the metadata rows are distinct, [update_draft]
    returns and changes nothing but statuses of metadata rows, each to
    published, declined or updated; statuses that were among
    [PUBLICATION_STATUSSES] stay among them. *)
Theorem update_draft_only_statuses (version : Version) (request : Request) (s : Store) :
  NoDup (md_id <$> metadata (db s)) →
  let result := update_draft version request s in
  result.1 = inr tt ∧ revision result.2 = revision s ∧
  only_statuses_changed (db s) (db result.2) ∧
  (Forall (λ m, status m ∈ PUBLICATION_STATUSSES.*1) (metadata (db s)) →
   Forall (λ m, status m ∈ PUBLICATION_STATUSSES.*1) (metadata (db result.2))).
Proof.
  intros Hnd. cbn zeta. rewrite update_draft_fold. cbn [fst snd db revision].
  split; [done|]. split; [done|].
  assert (Hinv : only_statuses_changed (db s)
            (foldl (λ d m, update_draft_turn version request m d) (db s)
               (filter (λ m, md_revision m = ver_revision version) (metadata (db s))))).
  { apply update_draft_turns_only_statuses; [done| |].
    - intros m Hm. by apply list_elem_of_filter in Hm as [_ ?].
    - unfold only_statuses_changed. split; [apply status_updated_refl|done]. }
  split; [exact Hinv|]. intros Hvalid. destruct Hinv as (Hall & _).
  apply Forall_forall. intros x [i Hi]%list_elem_of_lookup.
  destruct (Forall2_lookup_l _ _ _ _ _ Hall Hi) as (y & Hy & (_ & _ & _ & Hst)).
  destruct Hst as [->|Hst].
  - rewrite Forall_forall in Hvalid. apply Hvalid. by eapply list_elem_of_lookup_2.
  - rewrite !elem_of_cons in Hst.
    destruct Hst as [->|[->|[->|[]%elem_of_nil]]]; simpl; solve_elem_of.
Qed.

(** ** The rows of a formset: errors and what is left untouched *)

Lemma is_related_version_true fs_model fk_name obj_pk v :
  is_related_version fs_model fk_name obj_pk v = inr true ↔
  related_to fs_model fk_name obj_pk v.
Proof.
  unfold is_related_version, related_to. case_bool_decide as Hct.
  - destruct (field_dict v !! fk_name) as [x|].
    + split.
      * intros [= Hx]. apply bool_decide_eq_true in Hx. eauto.
      * intros (_ & x' & [= <-] & Hx). f_equal. by apply bool_decide_eq_true.
    + split; [done|]. by intros (_ & x & ? & _).
  - split; [done|]. by intros [? _].
Qed.

Lemma is_related_version_error fs_model fk_name obj_pk v e :
  is_related_version fs_model fk_name obj_pk v = inl e ↔
  e = KeyError fk_name ∧ content_type v = fs_model ∧ field_dict v !! fk_name = None.
Proof.
  unfold is_related_version. case_bool_decide as Hct.
  - destruct (field_dict v !! fk_name) as [x|].
    + split; [done|]. by intros (_ & _ & ?).
    + split; [by intros [= <-]|]. by intros (-> & _).
  - split; [done|]. by intros (_ & ? & _).
Qed.

Lemma related_versions_from_error fs_model fk_name obj_pk i vs e :
  related_versions_from fs_model fk_name obj_pk i vs = inl e →
  e = KeyError fk_name ∧
  Exists (λ v, content_type v = fs_model ∧ field_dict v !! fk_name = None) vs.
Proof.
  revert i. induction vs as [|v vs IH]; intros i; [done|]. simpl.
  destruct (is_related_version fs_model fk_name obj_pk v) as [e'|keep] eqn:Hv.
  - intros [= <-]. apply is_related_version_error in Hv as (-> & ? & ?).
    split; [done|]. by apply Exists_cons_hd.
  - destruct (related_versions_from _ _ _ (S i) vs) as [e'|tl] eqn:Hvs; [|done].
    intros [= <-]. destruct (IH _ Hvs) as [-> ?]. split; [done|].
    by apply Exists_cons_tl.
Qed.

Lemma related_versions_from_ok fs_model fk_name obj_pk i vs l :
  related_versions_from fs_model fk_name obj_pk i vs = inr l →
  Forall (λ v, content_type v = fs_model → is_Some (field_dict v !! fk_name)) vs ∧
  ∀ k r, (k, r) ∈ l →
         ∃ v, (i ≤ r)%nat ∧ vs !! (r - i)%nat = Some v ∧ k = object_id v ∧
              related_to fs_model fk_name obj_pk v.
Proof.
  revert i l. induction vs as [|v vs IH]; intros i l; simpl.
  - intros [= <-]. split; [done|]. by intros k r ?%elem_of_nil.
  - destruct (is_related_version fs_model fk_name obj_pk v) as [e'|keep] eqn:Hv; [done|].
    destruct (related_versions_from _ _ _ (S i) vs) as [e'|tl] eqn:Hvs; [done|].
    intros [= <-]. destruct (IH _ _ Hvs) as [Hall Htl]. split.
    + apply Forall_cons. split; [|done]. intros Hct.
      destruct (field_dict v !! fk_name) eqn:Hfk; [eauto|].
      assert (is_related_version fs_model fk_name obj_pk v = inl (KeyError fk_name)).
      { by apply is_related_version_error. }
      congruence.
    + assert (Hrest : ∀ k r, (k, r) ∈ tl →
                ∃ v0, (i ≤ r)%nat ∧ (v :: vs) !! (r - i)%nat = Some v0 ∧
                      k = object_id v0 ∧ related_to fs_model fk_name obj_pk v0).
      { intros k r Hin. destruct (Htl k r Hin) as (v0 & Hle & Hl & ? & ?).
        exists v0. split; [lia|]. split; [|done].
        replace (r - i)%nat with (S (r - S i)) by lia. done. }
      destruct keep; [|done].
      intros k r [[= -> ->]|Hin]%elem_of_cons; [|by apply Hrest].
      exists v. split; [done|]. rewrite Nat.sub_diag. split; [done|]. split; [done|].
      by apply is_related_version_true.
Qed.

Lemma dedup_related_versions_subseteq {V} (l : list (string * V)) kv :
  kv ∈ dedup_related_versions l → kv ∈ l.
Proof.
  unfold dedup_related_versions, items. destruct kv as [k v].
  intros [Hin|Hin]%elem_of_app.
  - by apply list_elem_of_filter in Hin as [_ ?].
  - apply elem_of_map_to_list in Hin. rewrite py_dict_lookup in Hin.
    apply last_occurrence_elem_of in Hin. by apply list_elem_of_filter in Hin as [_ ?].
Qed.

(** X10: the initial rows of a formset fail with a [KeyError] on the
    name of the foreign key exactly when a version of the formset's model
    lacks that field. *)
Theorem formset_initial_key_error (fs_model fk_name : string) (obj_pk : pyval)
    (queryset : list Instance) (revision_versions : list Version) :
  match formset_initial fs_model fk_name obj_pk queryset revision_versions with
  | inl e =>
      e = KeyError fk_name ∧
      Exists (λ v, content_type v = fs_model ∧ field_dict v !! fk_name = None)
             revision_versions
  | inr _ =>
      Forall (λ v, content_type v = fs_model → is_Some (field_dict v !! fk_name))
             revision_versions
  end.
Proof.
  unfold formset_initial, related_versions_of.
  destruct (related_versions_from _ _ _ _ _) as [e|l] eqn:Hl.
  - by apply related_versions_from_error in Hl.
  - by apply related_versions_from_ok in Hl as [? _].
Qed.

(** [del initial_row["id"]] on version objects never touches anything
    but the dictionaries of the versions it is applied to. *)
Lemma append_version_rows_versions (good : Version → Prop) (vs0 : list Version)
    (rvs : list (string * vref)) (st : list Version * list Row) :
  (∀ k r v, (k, r) ∈ rvs → vs0 !! r = Some v → good v) →
  Forall2 (λ v' v, v' = v ∨ (v' = del_id v ∧ good v)) st.1 vs0 →
  Forall2 (λ v' v, v' = v ∨ (v' = del_id v ∧ good v))
          (foldl append_version_row st rvs).1 vs0.
Proof.
  revert st. induction rvs as [|[k r] rvs IH]; intros st Hgood Hall; [done|].
  simpl. apply IH.
  { intros k' r' v Hin. apply (Hgood k' r' v). by apply list_elem_of_further. }
  assert ((append_version_row st (k, r)).1 = alter del_id r st.1) as ->.
  { unfold append_version_row. simpl. by destruct (row_in _ _ _). }
  apply Forall2_same_length_lookup. split.
  { rewrite length_alter. by eapply Forall2_length. }
  intros i v' v Hv' Hv. destruct (decide (i = r)) as [->|Hne].
  - rewrite list_lookup_alter_eq in Hv'.
    destruct (st.1 !! r) as [v1|] eqn:Hv1; [|done]. simpl in Hv'.
    injection Hv' as <-.
    pose proof (Forall2_lookup_lr _ _ _ _ _ _ Hall Hv1 Hv) as [->|[-> Hg]].
    + right. split; [done|]. apply (Hgood k r v); [apply list_elem_of_here|done].
    + right. split; [|done]. unfold del_id. simpl. by rewrite delete_delete_eq.
  - rewrite list_lookup_alter_ne in Hv' by done.
    exact (Forall2_lookup_lr _ _ _ _ _ _ Hall Hv' Hv).
Qed.

(** X11: when the initial rows of a formset are built, the only version
    dictionaries that change are those of versions related to the object,
    which lose the key id; every row is either a live object marked for
    deletion or the dictionary of a related version without its id. *)
Theorem formset_initial_touches_only_related (fs_model fk_name : string)
    (obj_pk : pyval) (queryset : list Instance) (revision_versions vs' : list Version)
    (initial : list Row) :
  formset_initial fs_model fk_name obj_pk queryset revision_versions
    = inr (vs', initial) →
  Forall2 (λ v' v, v' = v ∨
                   (v' = del_id v ∧ related_to fs_model fk_name obj_pk v))
          vs' revision_versions ∧
  ∀ row, row ∈ initial →
    (∃ related_obj, related_obj ∈ queryset ∧
        row = RowOwn (<["DELETE" := PBool true]> (model_to_dict related_obj))) ∨
    (∃ r v, row = RowVersion r ∧ revision_versions !! r = Some v ∧
            related_to fs_model fk_name obj_pk v ∧
            row_dict vs' row = delete "id" (field_dict v)).
Proof.
  unfold formset_initial, related_versions_of.
  destruct (related_versions_from _ _ _ _ _) as [e|l] eqn:Hl; [done|].
  intros [= Heq]. apply related_versions_from_ok in Hl as [_ Hl].
  set (rvs := dedup_related_versions l) in *.
  assert (vs' = (merge_initial revision_versions rvs queryset).1) as ->
    by (by rewrite Heq).
  assert (initial = (merge_initial revision_versions rvs queryset).2) as ->
    by (by rewrite Heq).
  clear Heq.
  assert (Hrvs : ∀ k r, (k, r) ∈ rvs →
            ∃ v, revision_versions !! r = Some v ∧ related_to fs_model fk_name obj_pk v).
  { intros k r Hin%dedup_related_versions_subseteq.
    destruct (Hl k r Hin) as (v & _ & Hv & _ & ?). rewrite Nat.sub_0_r in Hv. eauto. }
  split.
  - apply append_version_rows_versions.
    + intros k r v Hin Hv. destruct (Hrvs k r Hin) as (v0 & Hv0 & ?). congruence.
    + apply Forall_Forall2_diag, Forall_forall. auto.
  - intros row Hrow.
    destruct (merge_inv_end revision_versions rvs queryset)
      as [[extra Hlive] _ Hextra _ _].
    assert (Hversion : ∀ k r, (k, r) ∈ rvs →
              ∃ r0 v, RowVersion r = RowVersion r0 ∧ revision_versions !! r0 = Some v ∧
                related_to fs_model fk_name obj_pk v ∧
                row_dict (merge_initial revision_versions rvs queryset).1 (RowVersion r)
                  = delete "id" (field_dict v)).
    { intros k r Hin. destruct (Hrvs k r Hin) as (v & Hv & ?). exists r, v.
      split; [done|]. split; [done|]. split; [done|]. simpl.
      rewrite (merge_initial_field_dict _ _ _ k) by done.
      unfold current_field_dict. by rewrite Hv. }
    rewrite Hlive in Hrow. apply elem_of_app in Hrow as [Hrow|Hrow].
    + rewrite live_rows_map in Hrow. apply list_elem_of_fmap in Hrow as (o & -> & Ho).
      unfold live_row. destruct (py_dict rvs !! unicode (pk o)) as [r|] eqn:Hr.
      * right. rewrite py_dict_lookup in Hr. apply last_occurrence_elem_of in Hr.
        by apply (Hversion (unicode (pk o))).
      * left. eauto.
    + right. apply list_elem_of_lookup in Hrow as [j Hj].
      destruct (Hextra (length (live_rows rvs queryset) + j)%nat row) as (k & r & Hin & -> & _).
      * lia.
      * rewrite Hlive, lookup_app_r by lia.
        by replace (length (live_rows rvs queryset) + j - length (live_rows rvs queryset))%nat
          with j by lia.
      * by apply (Hversion k).
Qed.

(** ** What a request leaves as it is *)

Section preserves_lemmas.
Context (R : relation Store) `{!PreOrder R}.

Lemma preserves_ret {A} (a : A) : preserves R (mret a).
Proof. intros s. simpl. reflexivity. Qed.

Lemma preserves_raise {A} (e : exn) : preserves R (@raise A e).
Proof. intros s. simpl. reflexivity. Qed.

Lemma preserves_get_db : preserves R get_db.
Proof. intros s. simpl. reflexivity. Qed.

Lemma preserves_bind {A B} (m : M A) (k : A → M B) :
  preserves R m → (∀ a, preserves R (k a)) → preserves R (m ≫= k).
Proof.
  intros Hm Hk s. unfold_M. specialize (Hm s).
  destruct (m s) as [[e|a] s']; simpl in *; [done|].
  etrans; [exact Hm|]. apply Hk.
Qed.

Lemma preserves_for_each {A} (xs : list A) (body : A → M unit) :
  (∀ x, preserves R (body x)) → preserves R (for_each xs body).
Proof.
  intros Hbody. induction xs as [|x xs IH]; simpl.
  - apply (preserves_ret tt).
  - apply preserves_bind; [apply Hbody|by intros _].
Qed.

Lemma preserves_for_each_elem_of {A} (xs : list A) (body : A → M unit) :
  (∀ x, x ∈ xs → preserves R (body x)) → preserves R (for_each xs body).
Proof.
  induction xs as [|x xs IH]; intros Hbody; simpl.
  - apply (preserves_ret tt).
  - apply preserves_bind; [apply Hbody, list_elem_of_here|]. intros _.
    apply IH. intros y Hy. by apply Hbody, list_elem_of_further.
Qed.

Lemma preserves_key_of_text (text : string) : preserves R (key_of_text text).
Proof.
  unfold key_of_text.
  destruct (int_of_text text) as [key|]; [apply (preserves_ret key)|apply preserves_raise].
Qed.

Lemma preserves_get_object_or_404 {A} (matching : list A) :
  preserves R (get_object_or_404 matching).
Proof.
  destruct matching as [|x [|y l]]; simpl;
    [apply preserves_raise|apply (preserves_ret x)|apply preserves_raise].
Qed.

Lemma preserves_render (self : EasyPublisher) obj version context revert recover formsets :
  preserves R (render self obj version context revert recover formsets).
Proof.
  unfold render. destruct revert; [apply (preserves_ret _)|].
  destruct recover; [apply (preserves_ret _)|apply preserves_raise].
Qed.
End preserves_lemmas.

Lemma only_messages_added_message_create request message :
  preserves only_messages_added (message_create request message).
Proof.
  intros s. unfold only_messages_added. simpl. repeat split. by apply prefix_app_r.
Qed.

Lemma revision_end_tables (s : Store) :
  rows (db (revision_end s)) = rows (db s) ∧
  messages (db (revision_end s)) = messages (db s) ∧
  admin_log (db (revision_end s)) = admin_log (db s) ∧
  (rs_objects (revision s) = [] → db (revision_end s) = db s).
Proof.
  unfold revision_end. destruct (rs_objects (revision s)) as [|o objs]; [done|].
  cbn [db]. set (d1 := with_revisions _ _).
  assert (Hm : ∀ metas d, messages (foldl (add_metadata (next_id (rev_id <$> revisions (db s)))) d metas) = messages d ∧
                           admin_log (foldl (add_metadata (next_id (rev_id <$> revisions (db s)))) d metas) = admin_log d).
  { induction metas as [|x metas IH] using rev_ind; intros d; [done|].
    rewrite foldl_app. simpl. apply IH. }
  assert (Hv : ∀ objs d, messages (foldl (add_version (next_id (rev_id <$> revisions (db s)))) d objs) = messages d ∧
                          admin_log (foldl (add_version (next_id (rev_id <$> revisions (db s)))) d objs) = admin_log d).
  { induction objs0 as [|x objs0 IH] using rev_ind; intros d; [done|].
    rewrite foldl_app. simpl. apply IH. }
  split; [|split; [|split]]; [| | |done].
  - rewrite (proj2 (proj2 (add_metadata_versions _ _ _))).
    by rewrite (proj2 (add_version_revisions _ _ _)).
  - rewrite (proj1 (Hm _ _)). by rewrite (proj1 (Hv _ _)).
  - rewrite (proj2 (Hm _ _)). by rewrite (proj2 (Hv _ _)).
Qed.

(** X12: a request to [publish_view] that is not a POST, or a POST whose
    form or formsets do not validate, writes nothing but messages to the
    user. *)
Theorem publish_view_read_only (self : EasyPublisher) (save_m2m : Request → M unit)
    (request : Request) (oid revision_id : string) (extra_context : option dict)
    (s : Store) :
  method request ≠ "POST" ∨
  forallb (λ f, fs_is_valid f.2)
          (post_formsets (inline_instances self) (posted_formsets request) ∅)
    && form_is_valid request = false →
  let d' := db (publish_view self save_m2m request oid revision_id extra_context s).2 in
  rows d' = rows (db s) ∧ revisions d' = revisions (db s) ∧
  versions d' = versions (db s) ∧ metadata d' = metadata (db s) ∧
  admin_log d' = admin_log (db s) ∧
  messages (db s) `prefix_of` messages d'.
Proof.
  intros Hro. cbn zeta.
  assert (Hbody : preserves only_messages_added
            (publish_view_body self save_m2m request oid revision_id extra_context)).
  { unfold publish_view_body.
    apply preserves_bind; [apply _|apply preserves_get_db; apply _|]. intros d.
    apply preserves_bind; [apply _|apply preserves_key_of_text; apply _|]. intros key.
    apply preserves_bind; [apply _|apply preserves_get_object_or_404; apply _|]. intros obj.
    apply preserves_bind; [apply _|apply preserves_key_of_text; apply _|].
    intros revision_key.
    apply preserves_bind; [apply _|apply preserves_get_object_or_404; apply _|].
    intros version. case_bool_decide.
    { apply preserves_bind; [apply _|apply only_messages_added_message_create|].
      intros _. apply (preserves_ret _ _). }
    unfold render_revision_form. case_bool_decide as Hpost.
    - destruct Hro as [Hro|Hro]; [done|]. rewrite Hro.
      apply preserves_render; apply _.
    - apply preserves_bind; [apply _|apply preserves_get_db; apply _|]. intros d0.
      destruct (revision_formsets _ _ _ _ _ _) as [e|[vs formsets]].
      + apply preserves_raise; apply _.
      + apply preserves_render; apply _. }
  unfold publish_view, commit_on_success, create_on_success.
  specialize (Hbody (mkStore (db s) no_revision)).
  destruct (publish_view_body _ _ _ _ _ _ _) as [[e|response] s1]; simpl in *.
  - by repeat split.
  - destruct Hbody as (Hrev & ? & ? & ? & ? & ? & ?).
    destruct (revision_end_tables s1) as (_ & _ & _ & Hend).
    rewrite Hend; [done|]. by rewrite Hrev.
Qed.

Lemma metadata_save_rows m d : rows (metadata_save m d) = rows d.
Proof. done. Qed.

Lemma update_draft_rows_kept version request : preserves rows_kept (update_draft version request).
Proof.
  intros s. rewrite update_draft_fold. unfold rows_kept. cbn [snd db].
  generalize (filter (λ m, md_revision m = ver_revision version) (metadata (db s)))
    as turns.
  generalize (db s) as d. intros d turns. revert d.
  induction turns as [|m turns IH]; intros d; [done|].
  simpl. rewrite IH. unfold update_draft_turn. destruct (has_perm _ _); [|done].
  rewrite metadata_save_rows.
  generalize (metadata_of_object d version) as others. generalize d as d0.
  induction others as [|o others IHo] using rev_ind; [done|].
  by rewrite foldl_app.
Qed.

Lemma save_model_change_rows_kept request obj :
  has_perm (user request) can_approve_for_publication = false →
  preserves rows_kept (save_model request obj true).
Proof. intros Hperm s. unfold save_model. rewrite Hperm. done. Qed.

Lemma post_formsets_elem_of inlines posted prefixes f :
  f ∈ post_formsets inlines posted prefixes → f.2 ∈ posted.
Proof.
  revert posted prefixes. induction inlines as [|inline inlines IH];
    intros posted prefixes; [by intros ?%elem_of_nil|].
  destruct posted as [|formset posted]; [by intros ?%elem_of_nil|].
  simpl. intros [->|Hin]%elem_of_cons; [apply list_elem_of_here|].
  apply list_elem_of_further. by eapply IH.
Qed.

(** What the view keeps for a user without the permission, for any
    relation that holds when the rows are as before and that
    [save_formset] keeps. *)
Lemma publish_view_body_draft (R : relation Store) `{!PreOrder R}
    (self : EasyPublisher) (save_m2m : Request → M unit) (request : Request)
    (oid revision_id : string) (extra_context : option dict) :
  (∀ s s', rows (db s') = rows (db s) → R s s') →
  has_perm (user request) can_approve_for_publication = false →
  (∀ formset, formset ∈ posted_formsets request →
     preserves R (save_formset request formset true)) →
  preserves R (save_m2m request) →
  preserves R (publish_view_body self save_m2m request oid revision_id extra_context).
Proof.
  intros Hrows Hperm Hformsets Hm2m.
  assert (Hkept : ∀ {A} (m : M A), preserves rows_kept m → preserves R m).
  { intros A m Hm s0. apply Hrows, Hm. }
  unfold publish_view_body.
  apply preserves_bind; [apply _|apply preserves_get_db; apply _|]. intros d.
  apply preserves_bind; [apply _|apply preserves_key_of_text; apply _|]. intros key.
  apply preserves_bind; [apply _|apply preserves_get_object_or_404; apply _|]. intros obj.
  apply preserves_bind; [apply _|apply preserves_key_of_text; apply _|].
  intros revision_key.
  apply preserves_bind; [apply _|apply preserves_get_object_or_404; apply _|].
  intros version. case_bool_decide.
  { apply preserves_bind; [apply _|by apply Hkept; intros s0|].
    intros _. apply (preserves_ret _ _). }
  unfold render_revision_form. case_bool_decide as Hpost.
  - destruct (_ && _); [|apply preserves_render; apply _].
    apply preserves_bind; [apply _|by apply Hkept, save_model_change_rows_kept|].
    intros new_object.
    apply preserves_bind; [apply _|exact Hm2m|]. intros _.
    apply preserves_bind; [apply _| |].
    { apply preserves_for_each_elem_of; [apply _|]. intros f Hf.
      by apply Hformsets, (post_formsets_elem_of (inline_instances self) _ ∅). }
    intros _.
    apply preserves_bind; [apply _|apply Hkept, update_draft_rows_kept|]. intros _.
    apply preserves_bind; [apply _|by apply Hkept; intros s0|]. intros _.
    apply preserves_bind; [apply _|by apply Hkept; intros s0|]. intros _.
    apply (preserves_ret _ _).
  - apply preserves_bind; [apply _|apply preserves_get_db; apply _|]. intros d0.
    destruct (revision_formsets _ _ _ _ _ _) as [e|[vs formsets]].
    + apply preserves_raise; apply _.
    + apply preserves_render; apply _.
Qed.

(** X13: whatever a user without the publish permission posts to
    [publish_view], no row of the models is added or changed, provided
    that [save_m2m] leaves the rows alone: the rows afterwards are rows
    from before, and they are all there when no posted formset has a form
    marked for deletion. *)
Theorem publish_view_without_permission_rows (self : EasyPublisher)
    (save_m2m : Request → M unit) (request : Request) (oid revision_id : string)
    (extra_context : option dict) (s : Store) :
  has_perm (user request) can_approve_for_publication = false →
  (∀ s0, rows (db (save_m2m request s0).2) = rows (db s0)) →
  let d' := db (publish_view self save_m2m request oid revision_id extra_context s).2 in
  rows d' `sublist_of` rows (db s) ∧
  (Forall (λ formset, fs_deleted formset = []) (posted_formsets request) →
   rows d' = rows (db s)).
Proof.
  intros Hperm Hm2m. cbn zeta.
  assert (Hend : ∀ (R : relation Store) `{!PreOrder R},
            (∀ s s', rows (db s') = rows (db s) → R s s') →
            preserves R (publish_view_body self save_m2m request oid revision_id
                           extra_context) →
            R (mkStore (db s) no_revision)
              (publish_view self save_m2m request oid revision_id extra_context s).2).
  { intros R HR Hrows Hbody.
    unfold publish_view, commit_on_success, create_on_success.
    specialize (Hbody (mkStore (db s) no_revision)).
    destruct (publish_view_body _ _ _ _ _ _ _) as [[e|response] s1]; simpl in *.
    - by apply Hrows.
    - etrans; [exact Hbody|]. apply Hrows.
      by rewrite (proj1 (revision_end_tables s1)). }
  split.
  - apply (Hend rows_only_deleted _).
    + intros s1 s2 Heq. unfold rows_only_deleted. by rewrite Heq.
    + apply publish_view_body_draft; [apply _| |done| |].
      * intros s1 s2 Heq. unfold rows_only_deleted. by rewrite Heq.
      * intros formset _ s0. unfold rows_only_deleted.
        rewrite save_formset_draft by done. cbn [snd db].
        apply delete_rows_tables.
      * intros s0. unfold rows_only_deleted. by rewrite Hm2m.
  - intros Hnone. apply (Hend rows_kept _); [done|].
    apply publish_view_body_draft; [apply _|done|done| |exact Hm2m].
    intros formset Hin s0. unfold rows_kept.
    rewrite save_formset_draft by done. cbn [snd db].
    rewrite Forall_forall in Hnone. by rewrite (Hnone formset Hin).
Qed.

(** ** The prefixes of the formsets *)

Lemma post_formsets_prefixes inlines posted prefixes :
  (post_formsets inlines posted prefixes).*1 =
  take (length posted) (formset_prefixes inlines prefixes).
Proof.
  revert posted prefixes. induction inlines as [|inline inlines IH]; intros posted prefixes.
  - simpl. by rewrite take_nil.
  - destruct posted as [|formset posted]; [done|].
    simpl. by rewrite IH.
Qed.

Lemma revision_formsets_prefixes d obj inlines prefixes vs formsets vs' out :
  revision_formsets d obj inlines prefixes vs formsets = inr (vs', out) →
  out.*1 = formsets.*1 ++ formset_prefixes inlines prefixes.
Proof.
  revert prefixes vs formsets. induction inlines as [|inline inlines IH];
    intros prefixes vs formsets; simpl.
  - intros [= <- <-]. by rewrite app_nil_r.
  - destruct (formset_initial _ _ _ _ _) as [e|[vs1 initial]]; [done|].
    intros Hrest. rewrite (IH _ _ _ Hrest), fmap_app. simpl. by rewrite <- app_assoc.
Qed.

Lemma formset_prefixes_lookup inlines prefixes i inline :
  inlines !! i = Some inline →
  formset_prefixes inlines prefixes !! i =
  Some (numbered_prefix (default_prefix inline)
          (default 0%nat (prefixes !! default_prefix inline) +
           length (filter (λ x, default_prefix x = default_prefix inline)
                          (take (S i) inlines)))).
Proof.
  revert prefixes i. induction inlines as [|inline0 inlines IH]; intros prefixes i; [done|].
  change (formset_prefixes (inline0 :: inlines) prefixes) with
    (numbered_prefix (default_prefix inline0)
       (S (default 0%nat (prefixes !! default_prefix inline0))) ::
     formset_prefixes inlines
       (<[default_prefix inline0 := S (default 0%nat (prefixes !! default_prefix inline0))]>
          prefixes)).
  destruct i as [|i].
  - intros [= ->]. cbn [take lookup list_lookup].
    rewrite (filter_cons_True (λ x, default_prefix x = default_prefix inline)) by done.
    rewrite take_0, filter_nil. cbn [length]. by rewrite Nat.add_1_r.
  - intros Hi. change ((inline0 :: inlines) !! S i) with (inlines !! i) in Hi.
    etrans; [exact (IH _ _ Hi)|]. do 2 f_equal.
    change (take (S (S i)) (inline0 :: inlines)) with (inline0 :: take (S i) inlines).
    rewrite filter_cons.
    destruct (decide (default_prefix inline0 = default_prefix inline)) as [Heq|Hne].
    + rewrite Heq, lookup_insert_eq. simpl. lia.
    + rewrite lookup_insert_ne by done. done.
Qed.

Lemma string_app_nil_r (s : string) : s +:+ "" = s.
Proof.
  induction s as [|c s IH]; [done|].
  change (String c (s +:+ "") = String c s). by rewrite IH.
Qed.

Lemma numbered_prefix_inj prefix n m :
  (0 < n)%nat → (0 < m)%nat → numbered_prefix prefix n = numbered_prefix prefix m → n = m.
Proof.
  intros Hn Hm. unfold numbered_prefix. repeat case_bool_decide; try lia.
  - intros Heq. apply (inj (String.append prefix)), (inj (String.append "-")) in Heq.
    by apply (inj pretty) in Heq.
  - intros Heq. rewrite <- (string_app_nil_r prefix) in Heq at 2.
    by apply (inj (String.append prefix)) in Heq.
  - intros Heq. rewrite <- (string_app_nil_r prefix) in Heq at 1.
    by apply (inj (String.append prefix)) in Heq.
Qed.

(** X14: both branches of [render_revision_form] give the inline formsets
    the same prefixes: the n-th inline with a given default prefix gets
    that prefix for n = 1 and the prefix followed by a dash and n
    otherwise, so two inlines with the same default prefix never share a
    prefix. *)
Theorem formset_prefixes_numbered (self : EasyPublisher) (request : Request)
    (d : DB) (obj : Instance) (revision_versions vs' : list Version)
    (out : list (string * list Row)) :
  let inlines := inline_instances self in
  (* POST branch *)
  (post_formsets inlines (posted_formsets request) ∅).*1 =
    take (length (posted_formsets request)) (formset_prefixes inlines ∅) ∧
  (* GET branch *)
  (revision_formsets d obj inlines ∅ revision_versions [] = inr (vs', out) →
   out.*1 = formset_prefixes inlines ∅) ∧
  (* the numbering *)
  (∀ i inline, inlines !! i = Some inline →
     formset_prefixes inlines ∅ !! i =
     Some (numbered_prefix (default_prefix inline)
             (length (filter (λ x, default_prefix x = default_prefix inline)
                             (take (S i) inlines))))) ∧
  (∀ i j a b p, (i < j)%nat → inlines !! i = Some a → inlines !! j = Some b →
     default_prefix a = default_prefix b →
     formset_prefixes inlines ∅ !! i = Some p →
     formset_prefixes inlines ∅ !! j ≠ Some p).
Proof.
  cbn zeta. split; [apply post_formsets_prefixes|]. split.
  { intros Hget. by apply revision_formsets_prefixes in Hget. }
  assert (Hnum : ∀ i inline, inline_instances self !! i = Some inline →
     formset_prefixes (inline_instances self) ∅ !! i =
     Some (numbered_prefix (default_prefix inline)
             (length (filter (λ x, default_prefix x = default_prefix inline)
                             (take (S i) (inline_instances self)))))).
  { intros i inline Hi. by rewrite (formset_prefixes_lookup _ _ _ _ Hi), lookup_empty. }
  split; [exact Hnum|].
  intros i j a b p Hij Ha Hb Hab Hp Hq.
  rewrite (Hnum _ _ Ha) in Hp. rewrite (Hnum _ _ Hb) in Hq. rewrite <- Hab in Hq.
  injection Hp as <-. injection Hq as Hq.
  set (P := λ x, default_prefix x = default_prefix a) in *.
  assert (Hcount : ∀ k x, inline_instances self !! k = Some x → P x →
            (0 < length (filter P (take (S k) (inline_instances self))))%nat).
  { intros k x Hk HP. rewrite (take_S_r _ _ _ Hk), filter_app.
    rewrite (filter_cons_True P) by done. rewrite length_app. simpl. lia. }
  apply numbered_prefix_inj in Hq; [|by eapply Hcount..].
  assert (length (filter P (take (S i) (inline_instances self))) <
          length (filter P (take (S j) (inline_instances self))))%nat; [|lia].
  rewrite (take_S_r _ j b Hb), filter_app, (filter_cons_True P) by done.
  rewrite length_app. simpl.
  assert (length (filter P (take (S i) (inline_instances self))) ≤
          length (filter P (take j (inline_instances self))))%nat; [|lia].
  replace (take (S i) (inline_instances self))
    with (take (S i) (take j (inline_instances self))) by (rewrite take_take; f_equal; lia).
  rewrite <- (take_drop (S i) (take j (inline_instances self))) at 2.
  rewrite filter_app, length_app. lia.
Qed.

(** ** The patterns of get_urls *)

Lemma string_app_cons c s t : String c s +:+ t = String c (s +:+ t).
Proof. done. Qed.

Lemma string_app_nil_l s : "" +:+ s = s.
Proof. done. Qed.

Lemma split_slash_app a rest :
  contains slash a = false → split_slash (a +:+ String slash rest) = Some (a, rest).
Proof.
  induction a as [|c a IH]; [done|].
  rewrite string_app_cons. simpl. intros [Hc Ha]%orb_false_iff.
  rewrite Hc. by rewrite IH.
Qed.

Lemma strip_prefix_app p s : strip_prefix p (p +:+ s) = Some s.
Proof.
  induction p as [|c p IH]; [by destruct s|].
  rewrite string_app_cons. simpl. by rewrite bool_decide_eq_true_2.
Qed.

Lemma string_length_app s t :
  String.length (s +:+ t) = (String.length s + String.length t)%nat.
Proof.
  induction s as [|c s IH]; [done|]. rewrite string_app_cons. simpl. by rewrite IH.
Qed.

Lemma strip_suffix_app suffix x : strip_suffix suffix (x +:+ suffix) = Some x.
Proof.
  induction x as [|c x IH].
  - change ("" +:+ suffix) with suffix.
    destruct suffix as [|c suffix]; [done|].
    cbn [strip_suffix]. by rewrite bool_decide_eq_true_2.
  - rewrite string_app_cons.
    assert (String c (x +:+ suffix) ≠ suffix) as Hne.
    { intros Heq. apply (f_equal String.length) in Heq. simpl in Heq.
      rewrite string_length_app in Heq. lia. }
    simpl. rewrite bool_decide_eq_false_2 by done. by rewrite IH.
Qed.

Lemma match_draft_app oid revision_id rest :
  oid ≠ EmptyString → contains slash oid = false →
  revision_id ≠ EmptyString → contains slash revision_id = false →
  match_draft (oid +:+ "/drafts/" +:+ revision_id +:+ String slash rest)
    = Some (oid, revision_id).
Proof.
  intros Ho Hos Hr Hrs. unfold match_draft.
  change (oid +:+ "/drafts/" +:+ revision_id +:+ String slash rest)
    with (oid +:+ String slash ("drafts/" +:+ revision_id +:+ String slash rest)).
  rewrite split_slash_app by done. simpl. rewrite option_guard_True by done. simpl.
  rewrite ?strip_prefix_app, ?string_app_nil_l. simpl.
  rewrite split_slash_app by done. simpl.
  by rewrite option_guard_True.
Qed.

Lemma match_draftlist_app oid :
  oid ≠ EmptyString → contains slash oid = false →
  match_draftlist (oid +:+ "/drafts/") = Some oid.
Proof.
  intros Ho Hos. unfold match_draftlist.
  change (oid +:+ "/drafts/") with (oid +:+ String slash "drafts/").
  rewrite split_slash_app by done. simpl. by rewrite option_guard_True.
Qed.

(** The digits of a number hold no slash, and there is at least one. *)
Lemma pretty_N_go_contains_slash x s :
  contains slash (pretty_N_go x s) = contains slash s.
Proof.
  revert s. induction (N.lt_wf_0 x) as [x _ IH]; intros s.
  assert (x = 0 ∨ 0 < x)%N as [->|?] by lia; [done|].
  rewrite pretty_N_go_step by done. rewrite IH by (by apply N.div_lt).
  simpl. rewrite bool_decide_eq_false_2; [done|].
  unfold pretty_N_char. by repeat case_match.
Qed.

Lemma pretty_N_go_length x s :
  (String.length s ≤ String.length (pretty_N_go x s))%nat.
Proof.
  revert s. induction (N.lt_wf_0 x) as [x _ IH]; intros s.
  assert (x = 0 ∨ 0 < x)%N as [->|?] by lia; [done|].
  rewrite pretty_N_go_step by done.
  etrans; [|apply IH; by apply N.div_lt]. simpl. lia.
Qed.

Lemma pretty_N_address (x : N) :
  pretty x ≠ EmptyString ∧ contains slash (pretty x) = false.
Proof.
  unfold pretty, pretty_N. case_decide as Hx; [done|]. split.
  - rewrite pretty_N_go_step by lia. intros Heq.
    pose proof (pretty_N_go_length (x `div` 10)
                  (String (pretty_N_char (x `mod` 10)) "")) as Hlen.
    rewrite Heq in Hlen. simpl in Hlen. lia.
  - by rewrite pretty_N_go_contains_slash.
Qed.

Lemma pretty_Z_address (z : Z) :
  pretty z ≠ EmptyString ∧ contains slash (pretty z) = false.
Proof.
  unfold pretty, pretty_Z. destruct z as [|p|p]; [done|apply (pretty_N_address (Npos p))|].
  split; [done|]. rewrite string_app_cons. simpl.
  apply (pretty_N_address (Npos p)).
Qed.

Lemma resolve_publish (oid revision_id rest : string) :
  oid ≠ EmptyString → contains slash oid = false →
  revision_id ≠ EmptyString → contains slash revision_id = false →
  resolve (oid +:+ "/drafts/" +:+ revision_id +:+ "/" +:+ rest)
    = PublishView oid revision_id.
Proof.
  intros Ho Hos Hr Hrs. unfold resolve.
  change (oid +:+ "/drafts/" +:+ revision_id +:+ "/" +:+ rest)
    with (oid +:+ "/drafts/" +:+ revision_id +:+ String slash rest).
  rewrite match_draft_app by done.
  assert (match_draftlist (oid +:+ "/drafts/" +:+ revision_id +:+ String slash rest)
          = None) as ->; [|done].
  unfold match_draftlist.
  change (oid +:+ "/drafts/" +:+ revision_id +:+ String slash rest)
    with (oid +:+ String slash ("drafts/" +:+ revision_id +:+ String slash rest)).
  rewrite split_slash_app by done. simpl. rewrite option_guard_True by done. simpl.
  rewrite ?strip_prefix_app, ?string_app_nil_l. simpl.
  destruct revision_id as [|c r]; [done|]. rewrite string_app_cons.
  unfold at_end. rewrite !bool_decide_eq_false_2; [done| |done].
  unfold newline. intros [= _ Heq]. by destruct r.
Qed.

(** X15: for an object id that is not empty and has no slash, the
    patterns of [get_urls] send the drafts address to [drafts_view], the
    address of a draft (whatever follows it) to [publish_view] with the
    object id and the revision id, and the current address to the view
    registered for it. *)
Theorem resolve_easypublisher_urls (oid revision_id rest : string) :
  oid ≠ EmptyString → contains slash oid = false →
  resolve (oid +:+ "/drafts/") = DraftsView oid ∧
  (revision_id ≠ EmptyString → contains slash revision_id = false →
   resolve (oid +:+ "/drafts/" +:+ revision_id +:+ "/" +:+ rest)
     = PublishView oid revision_id) ∧
  (contains newline_char oid = false →
   resolve (oid +:+ "/current/") = CurrentView oid).
Proof.
  intros Ho Hos. split; [|split].
  - unfold resolve. by rewrite match_draftlist_app.
  - intros Hr Hrs. by apply resolve_publish.
  - intros Hnl. unfold resolve.
    assert (match_draftlist (oid +:+ "/current/") = None) as ->.
    { unfold match_draftlist.
      change (oid +:+ "/current/") with (oid +:+ String slash "current/").
      rewrite split_slash_app by done. simpl. by rewrite option_guard_True. }
    assert (match_draft (oid +:+ "/current/") = None) as ->.
    { unfold match_draft.
      change (oid +:+ "/current/") with (oid +:+ String slash "current/").
      rewrite split_slash_app by done. simpl. by rewrite option_guard_True. }
    unfold match_current. rewrite strip_suffix_app. simpl.
    rewrite option_guard_True by done. simpl. by rewrite Hnl.
Qed.

(** ** drafts_view and history_view *)

Lemma exists_elem_of {A} (l : list A) : l ≠ [] → ∃ x, x ∈ l.
Proof. destruct l as [|x l]; [done|]. intros _. exists x. apply list_elem_of_here. Qed.

Lemma fmap_nil_inv_ne {A B} (f : A → B) (l : list A) : f <$> l ≠ [] → l ≠ [].
Proof. by intros Hne ->. Qed.

Lemma action_list_ok (oid : string) (pairs : list (Version * Revision)) :
  oid ≠ EmptyString → contains slash oid = false →
  Forall (λ p, object_id p.1 = oid) pairs →
  action_list pairs =
  inr ((λ p, (p.2, oid +:+ "/drafts/" +:+ pretty (rev_id p.2) +:+ "/")) <$> pairs).
Proof.
  intros Ho Hos. induction 1 as [|[v r] pairs Hv _ IH]; [done|].
  simpl in Hv. simpl. rewrite IH. unfold reverse_draft. rewrite Hv.
  destruct (pretty_Z_address (rev_id r)) as [Hne Hns].
  pose proof (match_draft_app oid (pretty (rev_id r)) "" Ho Hos Hne Hns) as Hm.
  change (oid +:+ "/drafts/" +:+ pretty (rev_id r) +:+ String slash "")
    with (oid +:+ "/drafts/" +:+ pretty (rev_id r) +:+ "/") in Hm.
  rewrite Hm. by rewrite bool_decide_eq_true_2.
Qed.

(** X16: [drafts_view] lists exactly the draft revisions of the object,
    each with an address that the patterns of [get_urls] resolve to
    [publish_view] for that object and revision; unless the caller
    overrides it, [has_draft] in the context is truthy exactly when the
    list is not empty, and is what [history_view] puts there. *)
Theorem drafts_view_links (self : EasyPublisher) (get_language : string)
    (request : Request) (oid : string) (extra_context : option dict) (d : DB) :
  oid ≠ EmptyString → contains slash oid = false →
  ∃ actions context,
    drafts_view self get_language request oid extra_context d
      = inr (mkHistoryPage oid (Some actions) context) ∧
    (∀ revision url, (revision, url) ∈ actions →
       revision ∈ get_draft_revisions self get_language d oid ∧
       resolve url = PublishView oid (pretty (rev_id revision))) ∧
    (∀ revision, revision ∈ get_draft_revisions self get_language d oid →
       ∃ url, (revision, url) ∈ actions) ∧
    (default ∅ extra_context !! "has_draft" = None →
     (actions ≠ [] ↔
      truthy (default PNone (context !! "has_draft")) = true) ∧
     context !! "has_draft" =
       hp_context (history_view self get_language request oid extra_context d)
         !! "has_draft").
Proof.
  intros Ho Hos. unfold drafts_view.
  set (pairs := _ ≫= _).
  assert (Hpairs : ∀ v r, (v, r) ∈ pairs ↔
            v ∈ get_draft_versions self get_language d oid ∧
            r ∈ revisions d ∧ rev_id r = ver_revision v).
  { intros v r. unfold pairs. rewrite list_elem_of_bind. split.
    - intros (v' & Hin & Hv'). apply list_elem_of_bind in Hin as (r' & Hin & Hr').
      apply list_elem_of_singleton in Hin as [= -> ->].
      by apply list_elem_of_filter in Hr' as [? ?].
    - intros (Hv & Hr & Hrv). exists v. split; [|done].
      apply list_elem_of_bind. exists r. split; [by apply list_elem_of_singleton|].
      by apply list_elem_of_filter. }
  rewrite (action_list_ok oid) by first [done|
    apply Forall_forall; intros [v r] [Hv _]%Hpairs;
    unfold get_draft_versions in Hv; by apply list_elem_of_filter in Hv as [(_ & ? & _) _]].
  eexists _, _. split; [done|].
  assert (Hrev : ∀ revision, revision ∈ get_draft_revisions self get_language d oid ↔
            ∃ v, (v, revision) ∈ pairs).
  { intros r. rewrite elem_of_get_draft_revisions_versions. split.
    - intros (Hr & v & Hv & Hrv). exists v. by apply Hpairs.
    - intros (v & (Hv & Hr & Hrv)%Hpairs). eauto. }
  split; [|split].
  - intros revision url ([v r] & [= -> ->] & Hin)%list_elem_of_fmap. simpl. split.
    + apply Hrev. eauto.
    + destruct (pretty_Z_address (rev_id r)) as [Hne Hns].
      by apply (resolve_publish oid (pretty (rev_id r)) "").
  - intros revision [v Hv]%Hrev. eexists. apply list_elem_of_fmap. by exists (v, revision).
  - intros Hec. unfold history_view. simpl.
    rewrite !lookup_union_r by done. rewrite !lookup_insert_ne by done.
    rewrite !lookup_insert_eq. split; [|done].
    unfold has_draft.
    assert (Hlen : ∀ l : list Revision,
              truthy (PInt (Z.of_nat (length l))) = true ↔ l ≠ []).
    { intros [|r0 l]; [done|]. split; [done|]. intros _.
      simpl length. rewrite Nat2Z.inj_succ. simpl. apply negb_true_iff, Z.eqb_neq. lia. }
    transitivity (get_draft_revisions self get_language d oid ≠ []);
      [|symmetry; apply Hlen].
    split.
    + intros Hne%fmap_nil_inv_ne. destruct (exists_elem_of _ Hne) as [[v r] Hin].
      assert (r ∈ get_draft_revisions self get_language d oid) as Hr
        by (apply Hrev; eauto).
      intros Hnil. rewrite Hnil in Hr. by apply elem_of_nil in Hr.
    + intros Hne. destruct (exists_elem_of _ Hne) as [r Hr].
      apply Hrev in Hr as [v Hv]. intros Hnil%fmap_nil_inv.
      rewrite Hnil in Hv. by apply elem_of_nil in Hv.
Qed.

(** ** change_view and the patterns of get_urls *)

(** X17: the address [change_view] redirects to, taken relative to the
    address of the object, resolves to [publish_view] for that object and
    the last of its draft revisions. *)
Theorem change_view_redirect_resolves (self : EasyPublisher) (get_language : string)
    (request : Request) (oid : string) (extra_context : option dict) (d : DB)
    (url : string) :
  oid ≠ EmptyString → contains slash oid = false →
  change_view self get_language request oid extra_context d = HttpResponseRedirect url →
  ∃ latest_draft,
    last (get_draft_revisions self get_language d oid) = Some latest_draft ∧
    resolve (oid +:+ "/" +:+ url) = PublishView oid (pretty (rev_id latest_draft)).
Proof.
  intros Ho Hos (draft & Hdraft & _ & _ & ->)%change_view_redirect_cases.
  exists draft. split.
  - unfold get_latest_draft, get_latest_draft_revision in Hdraft.
    rewrite last_lookup.
    destruct (get_draft_revisions _ _ _ _) as [|r l]; [done|].
    rewrite bool_decide_eq_true_2 in Hdraft by done. simpl in *.
    by rewrite Nat.sub_0_r in Hdraft.
  - destruct (pretty_Z_address (rev_id draft)) as [Hne Hns].
    exact (resolve_publish oid (pretty (rev_id draft)) "" Ho Hos Hne Hns).
Qed.

(** ** The subclasses *)

(** X18: when the link to the parent does not set the key current, the
    change views of the two subclasses redirect exactly when the change
    view of [EasyPublisher] does, and to the same address. *)
Theorem subclass_change_views_redirect_alike (self : EasyPublisher)
    (get_language : string) (extra_forms : string → pyval)
    (_get_parent_link : string → dict) (request : Request) (oid : string)
    (extra_context : option dict) (d : DB) (url : string) :
  _get_parent_link oid !! "current" = None →
  let plain := change_view self get_language request oid extra_context d in
  (fka_change_view self get_language extra_forms _get_parent_link
     request oid extra_context d = HttpResponseRedirect url ↔
   plain = HttpResponseRedirect url) ∧
  (invisible_change_view self get_language _get_parent_link
     request oid extra_context d = HttpResponseRedirect url ↔
   plain = HttpResponseRedirect url).
Proof.
  intros Hlink. cbn zeta.
  unfold fka_change_view, invisible_change_view,
    _add_foreign_key_aware_model_admin_behaviour, _add_invisible_model_admin_behaviour.
  rewrite !change_view_redirect_cases. simpl.
  assert (Hcur1 : (default ∅ extra_context ∪
                   (_get_parent_link oid ∪ <["extra_forms" := extra_forms oid]> ∅))
                    !! "current" = default ∅ extra_context !! "current").
  { destruct (default ∅ extra_context !! "current") as [v|] eqn:Hv.
    - by apply lookup_union_Some_l.
    - rewrite lookup_union_r by done. rewrite lookup_union_r by done.
      by rewrite lookup_insert_ne. }
  assert (Hcur2 : (default ∅ extra_context ∪ _get_parent_link oid)
                    !! "current" = default ∅ extra_context !! "current").
  { destruct (default ∅ extra_context !! "current") as [v|] eqn:Hv.
    - by apply lookup_union_Some_l.
    - by rewrite lookup_union_r. }
  by rewrite Hcur1, Hcur2.
Qed.

Lemma same_up_to_context_refl a : same_up_to_context a a.
Proof. destruct a as [e|[u|o c|t f fs c]]; simpl; done. Qed.

Lemma agree_refl m : agree m m.
Proof. intros s. split; [done|apply same_up_to_context_refl]. Qed.

Lemma agree_bind {A} (m : M A) (k k' : A → M HttpResponse) :
  (∀ a, agree (k a) (k' a)) → agree (m ≫= k) (m ≫= k').
Proof.
  intros Hk s. unfold_M. destruct (m s) as [[e|a] s1]; [done|]. apply Hk.
Qed.

Lemma agree_render self obj version context context' revert recover formsets :
  agree (render self obj version context revert recover formsets)
        (render self obj version context' revert recover formsets).
Proof.
  intros s. unfold render. destruct revert; [done|]. by destruct recover.
Qed.

Lemma publish_view_body_agree self save_m2m request oid revision_id ec ec' :
  agree (publish_view_body self save_m2m request oid revision_id ec)
        (publish_view_body self save_m2m request oid revision_id ec').
Proof.
  unfold publish_view_body.
  apply agree_bind. intros d. apply agree_bind. intros key.
  apply agree_bind. intros obj. apply agree_bind. intros revision_key.
  apply agree_bind. intros version. case_bool_decide; [apply agree_refl|].
  unfold render_revision_form. case_bool_decide.
  - destruct (_ && _); [apply agree_refl|apply agree_render].
  - apply agree_bind. intros d0.
    destruct (revision_formsets _ _ _ _ _ _) as [e|[vs formsets]];
      [apply agree_refl|apply agree_render].
Qed.

Lemma publish_view_agree self save_m2m request oid revision_id ec ec' :
  agree (publish_view self save_m2m request oid revision_id ec)
        (publish_view self save_m2m request oid revision_id ec').
Proof.
  intros s. unfold publish_view, commit_on_success, create_on_success.
  destruct (publish_view_body_agree self save_m2m request oid revision_id ec ec'
              (mkStore (db s) no_revision)) as [Hs Hr].
  destruct (publish_view_body _ _ _ _ _ ec _) as [[e|r] s1],
           (publish_view_body _ _ _ _ _ ec' _) as [[e'|r'] s1']; simpl in *;
    subst; try done; by destruct r.
Qed.

(** X19: the publish views of the two subclasses leave the database in
    the state the publish view of [EasyPublisher] leaves it in, and answer
    alike up to the context handed to the template. *)
Theorem subclass_publish_views_store (self : EasyPublisher)
    (save_m2m : Request → M unit) (extra_forms : string → pyval)
    (_get_parent_link : string → dict) (request : Request) (oid version_id : string)
    (extra_context : option dict) (s : Store) :
  let plain := publish_view self save_m2m request oid version_id extra_context s in
  let fka := fka_publish_view self save_m2m extra_forms _get_parent_link
               request oid version_id extra_context s in
  let invisible := invisible_publish_view self save_m2m _get_parent_link
                     request oid version_id extra_context s in
  fka.2 = plain.2 ∧ same_up_to_context fka.1 plain.1 ∧
  invisible.2 = plain.2 ∧ same_up_to_context invisible.1 plain.1.
Proof.
  cbn zeta. unfold fka_publish_view, invisible_publish_view.
  split; [apply publish_view_agree|]. split; [apply publish_view_agree|].
  split; apply publish_view_agree.
Qed.

(** ** The further theorems at the scenario *)

(** An editor without the publish permission posts the draft of the
    scenario with the form of the stored comment marked for deletion: the
    request goes through and the row of the comment is gone. *)
Lemma editor_deletes_comment :
  let result := publish_view Scenario.admin Scenario.save_m2m_ok
                  (Cases.deleting_post Scenario.editor) "1" "1" None
                  (mkStore Scenario.draft_db no_revision) in
  result.1 = inr (HttpResponseRedirect "../../") ∧
  rows (db result.2) = [Scenario.article].
Proof. cbv zeta. split; vm_compute; reflexivity. Qed.

Lemma _eq_same_fields_witness :
  dom (attrs Cases.unsaved_a) = dom (attrs Cases.unsaved_b) ∧
  _eq Cases.unsaved_a Cases.unsaved_b = _eq Cases.unsaved_b Cases.unsaved_a.
Proof.
  assert (Hdom : dom (attrs Cases.unsaved_a) = dom (attrs Cases.unsaved_b))
    by (vm_compute; reflexivity).
  split; [exact Hdom|]. exact (_eq_same_fields Cases.unsaved_a Cases.unsaved_b Hdom).
Defined.

Lemma save_formset_without_permission_witness :
  has_perm Scenario.editor can_approve_for_publication = false ∧
  let request := Scenario.posted Scenario.editor in
  let formset := Cases.deleting_formset in
  let s := mkStore Scenario.live_db no_revision in
  let result := save_formset request formset true s in
  let d' := db result.2 in
  result.1 = inr tt ∧
  rows d' `sublist_of` rows (db s) ∧ revisions d' = revisions (db s) ∧
  versions d' = versions (db s) ∧ metadata d' = metadata (db s) ∧
  messages d' = messages (db s) ∧ admin_log d' = admin_log (db s) ∧
  (fs_deleted formset = [] → d' = db s) ∧
  rs_meta (revision result.2)
    = rs_meta (revision s) ++ [("draft", LANGUAGE_CODE request)] ∧
  rs_comment (revision result.2) = rs_comment (revision s) ∧
  (∀ o, o ∈ rs_objects (revision result.2) ↔
        o ∈ rs_objects (revision s) ∨ o ∈ fs_instances formset).
Proof.
  assert (Hperm : has_perm (user (Scenario.posted Scenario.editor))
                    can_approve_for_publication = false) by reflexivity.
  split; [exact Hperm|].
  exact (save_formset_without_permission (Scenario.posted Scenario.editor)
           Cases.deleting_formset true (mkStore Scenario.live_db no_revision) Hperm).
Defined.

Lemma change_view_shows_change_form_witness :
  has_perm Scenario.chief can_approve_for_publication = true ∧
  ∃ context,
    change_view Scenario.admin "en" (Scenario.viewing Scenario.chief "en") "1" None
      Scenario.draft_db = AdminChangeView "1" context ∧
    (∀ key, key ≠ "has_draft" → context !! key = (∅ : dict) !! key) ∧
    context !! "has_draft" = Some (PInt 1).
Proof.
  assert (Hperm : has_perm (user (Scenario.viewing Scenario.chief "en"))
                    can_approve_for_publication = true) by reflexivity.
  split; [exact Hperm|].
  exact (change_view_shows_change_form Scenario.admin "en"
           (Scenario.viewing Scenario.chief "en") "1" None Scenario.draft_db
           (or_introl Hperm)).
Defined.

Lemma save_model_draft_not_public_witness :
  has_perm Scenario.editor can_approve_for_publication = false ∧
  ∀ o, o ∈ get_query_set "Article"
             (db (save_model (Scenario.posted Scenario.editor) Scenario.new_article false
                    (mkStore Scenario.live_db no_revision)).2) →
       o ∈ get_query_set "Article" Scenario.live_db.
Proof.
  assert (Hperm : has_perm (user (Scenario.posted Scenario.editor))
                    can_approve_for_publication = false) by reflexivity.
  split; [exact Hperm|].
  exact (save_model_draft_not_public (Scenario.posted Scenario.editor)
           Scenario.new_article false (mkStore Scenario.live_db no_revision)
           "Article" Hperm).
Defined.

Lemma update_draft_only_statuses_witness :
  NoDup (md_id <$> metadata Scenario.draft_db) ∧
  let s := mkStore Scenario.draft_db no_revision in
  let result := update_draft Scenario.article_version (Scenario.posted Scenario.chief) s in
  result.1 = inr tt ∧ revision result.2 = revision s ∧
  only_statuses_changed (db s) (db result.2) ∧
  (Forall (λ m, status m ∈ PUBLICATION_STATUSSES.*1) (metadata (db s)) →
   Forall (λ m, status m ∈ PUBLICATION_STATUSSES.*1) (metadata (db result.2))).
Proof.
  assert (Hnd : NoDup (md_id <$> metadata (db (mkStore Scenario.draft_db no_revision))))
    by (apply (bool_decide_unpack _); vm_compute; exact I).
  split; [exact Hnd|].
  exact (update_draft_only_statuses Scenario.article_version
           (Scenario.posted Scenario.chief) (mkStore Scenario.draft_db no_revision) Hnd).
Defined.

Lemma formset_initial_touches_only_related_witness :
  let queryset := [Scenario.comment; Scenario.other_comment] in
  let merged := merge_initial Scenario.comment_versions [("None", 1%nat); ("5", 2%nat)]
                  queryset in
  formset_initial "Comment" "article" (PInt 1) queryset Scenario.comment_versions
    = inr (merged.1, merged.2) ∧
  Forall2 (λ v' v, v' = v ∨ (v' = del_id v ∧ related_to "Comment" "article" (PInt 1) v))
          merged.1 Scenario.comment_versions ∧
  ∀ row, row ∈ merged.2 →
    (∃ related_obj, related_obj ∈ queryset ∧
        row = RowOwn (<["DELETE" := PBool true]> (model_to_dict related_obj))) ∨
    (∃ r v, row = RowVersion r ∧ Scenario.comment_versions !! r = Some v ∧
            related_to "Comment" "article" (PInt 1) v ∧
            row_dict merged.1 row = delete "id" (field_dict v)).
Proof.
  cbn zeta.
  assert (Hinit :
    formset_initial "Comment" "article" (PInt 1)
      [Scenario.comment; Scenario.other_comment] Scenario.comment_versions
    = inr ((merge_initial Scenario.comment_versions [("None", 1%nat); ("5", 2%nat)]
              [Scenario.comment; Scenario.other_comment]).1,
           (merge_initial Scenario.comment_versions [("None", 1%nat); ("5", 2%nat)]
              [Scenario.comment; Scenario.other_comment]).2))
    by (vm_compute; reflexivity).
  split; [exact Hinit|].
  exact (formset_initial_touches_only_related "Comment" "article" (PInt 1)
           [Scenario.comment; Scenario.other_comment] Scenario.comment_versions _ _ Hinit).
Defined.

Lemma publish_view_read_only_witness :
  let request := Cases.invalid_post Scenario.chief in
  let s := mkStore Scenario.draft_db no_revision in
  forallb (λ f, fs_is_valid f.2)
          (post_formsets (inline_instances Scenario.admin) (posted_formsets request) ∅)
    && form_is_valid request = false ∧
  let d' := db (publish_view Scenario.admin Scenario.save_m2m_ok request "1" "1" None s).2 in
  rows d' = rows (db s) ∧ revisions d' = revisions (db s) ∧
  versions d' = versions (db s) ∧ metadata d' = metadata (db s) ∧
  admin_log d' = admin_log (db s) ∧
  messages (db s) `prefix_of` messages d'.
Proof.
  cbn zeta.
  assert (Hinvalid :
    forallb (λ f, fs_is_valid f.2)
      (post_formsets (inline_instances Scenario.admin)
         (posted_formsets (Cases.invalid_post Scenario.chief)) ∅)
      && form_is_valid (Cases.invalid_post Scenario.chief) = false)
    by (vm_compute; reflexivity).
  split; [exact Hinvalid|].
  exact (publish_view_read_only Scenario.admin Scenario.save_m2m_ok
           (Cases.invalid_post Scenario.chief) "1" "1" None
           (mkStore Scenario.draft_db no_revision) (or_intror Hinvalid)).
Defined.

Lemma publish_view_without_permission_rows_witness :
  has_perm Scenario.editor can_approve_for_publication = false ∧
  let request := Cases.deleting_post Scenario.editor in
  let s := mkStore Scenario.draft_db no_revision in
  let d' := db (publish_view Scenario.admin Scenario.save_m2m_ok request "1" "1" None
                  s).2 in
  rows d' `sublist_of` rows (db s) ∧
  (Forall (λ formset, fs_deleted formset = []) (posted_formsets request) →
   rows d' = rows (db s)).
Proof.
  assert (Hperm : has_perm (user (Cases.deleting_post Scenario.editor))
                    can_approve_for_publication = false) by reflexivity.
  split; [exact Hperm|].
  exact (publish_view_without_permission_rows Scenario.admin Scenario.save_m2m_ok
           (Cases.deleting_post Scenario.editor) "1" "1" None
           (mkStore Scenario.draft_db no_revision) Hperm (λ s0, eq_refl)).
Defined.

Lemma resolve_easypublisher_urls_witness :
  contains slash "1" = false ∧
  resolve ("1" +:+ "/drafts/") = DraftsView "1" ∧
  ("7" ≠ EmptyString → contains slash "7" = false →
   resolve ("1" +:+ "/drafts/" +:+ "7" +:+ "/" +:+ "") = PublishView "1" "7") ∧
  (contains newline_char "1" = false →
   resolve ("1" +:+ "/current/") = CurrentView "1").
Proof.
  assert (Hne : "1" ≠ EmptyString) by discriminate.
  assert (Hslash : contains slash "1" = false) by reflexivity.
  split; [exact Hslash|].
  exact (resolve_easypublisher_urls "1" "7" "" Hne Hslash).
Defined.

Lemma drafts_view_links_witness :
  contains slash "1" = false ∧
  ∃ actions context,
    drafts_view Scenario.admin "en" (Scenario.viewing Scenario.editor "en") "1" None
      Scenario.draft_db = inr (mkHistoryPage "1" (Some actions) context) ∧
    (∀ revision url, (revision, url) ∈ actions →
       revision ∈ get_draft_revisions Scenario.admin "en" Scenario.draft_db "1" ∧
       resolve url = PublishView "1" (pretty (rev_id revision))) ∧
    (∀ revision, revision ∈ get_draft_revisions Scenario.admin "en" Scenario.draft_db "1" →
       ∃ url, (revision, url) ∈ actions) ∧
    ((∅ : dict) !! "has_draft" = None →
     (actions ≠ [] ↔
      truthy (default PNone (context !! "has_draft")) = true) ∧
     context !! "has_draft" =
       hp_context (history_view Scenario.admin "en"
                     (Scenario.viewing Scenario.editor "en") "1" None Scenario.draft_db)
         !! "has_draft").
Proof.
  assert (Hne : "1" ≠ EmptyString) by discriminate.
  assert (Hslash : contains slash "1" = false) by reflexivity.
  split; [exact Hslash|].
  exact (drafts_view_links Scenario.admin "en" (Scenario.viewing Scenario.editor "en")
           "1" None Scenario.draft_db Hne Hslash).
Defined.

Lemma change_view_redirect_resolves_witness :
  change_view Scenario.admin "en" (Scenario.viewing Scenario.editor "en") "1" None
    Scenario.draft_db = HttpResponseRedirect "drafts/1/" ∧
  ∃ latest_draft,
    last (get_draft_revisions Scenario.admin "en" Scenario.draft_db "1")
      = Some latest_draft ∧
    resolve ("1" +:+ "/" +:+ "drafts/1/") = PublishView "1" (pretty (rev_id latest_draft)).
Proof.
  assert (Hne : "1" ≠ EmptyString) by discriminate.
  assert (Hslash : contains slash "1" = false) by reflexivity.
  assert (Hredirect :
    change_view Scenario.admin "en" (Scenario.viewing Scenario.editor "en") "1" None
      Scenario.draft_db = HttpResponseRedirect "drafts/1/")
    by (vm_compute; reflexivity).
  split; [exact Hredirect|].
  exact (change_view_redirect_resolves Scenario.admin "en"
           (Scenario.viewing Scenario.editor "en") "1" None Scenario.draft_db
           "drafts/1/" Hne Hslash Hredirect).
Defined.

Lemma subclass_change_views_redirect_alike_witness :
  Cases.parent_link "1" !! "current" = None ∧
  let plain := change_view Scenario.admin "en" (Scenario.viewing Scenario.editor "en")
                 "1" None Scenario.draft_db in
  (fka_change_view Scenario.admin "en" Cases.extra_forms Cases.parent_link
     (Scenario.viewing Scenario.editor "en") "1" None Scenario.draft_db
     = HttpResponseRedirect "drafts/1/" ↔
   plain = HttpResponseRedirect "drafts/1/") ∧
  (invisible_change_view Scenario.admin "en" Cases.parent_link
     (Scenario.viewing Scenario.editor "en") "1" None Scenario.draft_db
     = HttpResponseRedirect "drafts/1/" ↔
   plain = HttpResponseRedirect "drafts/1/").
Proof.
  assert (Hlink : Cases.parent_link "1" !! "current" = None)
    by (vm_compute; reflexivity).
  split; [exact Hlink|].
  exact (subclass_change_views_redirect_alike Scenario.admin "en" Cases.extra_forms
           Cases.parent_link (Scenario.viewing Scenario.editor "en") "1" None
           Scenario.draft_db "drafts/1/" Hlink).
Defined.

Lemma update_draft_without_permission_witness :
  has_perm Scenario.editor can_approve_for_publication = false ∧
  update_draft Scenario.article_version (Scenario.posted Scenario.editor)
    (mkStore Scenario.draft_db no_revision) =
  (inr tt,
   mkStore (with_metadata Scenario.draft_db
              [mkMetaData 1 1 "updated" "en"; mkMetaData 2 1 "updated" "en"])
           no_revision).
Proof.
  assert (Hperm : has_perm (user (Scenario.posted Scenario.editor))
                    can_approve_for_publication = false) by reflexivity.
  assert (Hnd : NoDup (md_id <$> metadata (db (mkStore Scenario.draft_db no_revision))))
    by (apply (bool_decide_unpack _); vm_compute; exact I).
  split; [exact Hperm|].
  etrans; [exact (update_draft_without_permission Scenario.article_version
                    (Scenario.posted Scenario.editor)
                    (mkStore Scenario.draft_db no_revision) Hperm Hnd)|].
  vm_compute. reflexivity.
Defined.

Lemma update_draft_single_metadata_witness :
  filter (λ m, md_revision m = ver_revision Scenario.article_version)
         (metadata Cases.three_drafts_db) = [mkMetaData 2 1 "draft" "en"] ∧
  update_draft Scenario.article_version (Scenario.posted Scenario.chief)
    (mkStore Cases.three_drafts_db no_revision) =
  (inr tt,
   mkStore (with_metadata Cases.three_drafts_db
              [mkMetaData 1 2 "declined" "en"; mkMetaData 2 1 "published" "en";
               mkMetaData 3 2 "declined" "fr"; mkMetaData 4 3 "draft" "en"])
           no_revision).
Proof.
  assert (Hperm : has_perm (user (Scenario.posted Scenario.chief))
                    can_approve_for_publication = true) by reflexivity.
  assert (Hnd : NoDup (md_id <$> metadata (db (mkStore Cases.three_drafts_db no_revision))))
    by (apply (bool_decide_unpack _); vm_compute; exact I).
  assert (Hone :
    filter (λ m, md_revision m = ver_revision Scenario.article_version)
           (metadata (db (mkStore Cases.three_drafts_db no_revision)))
    = [mkMetaData 2 1 "draft" "en"]) by (vm_compute; reflexivity).
  split; [exact Hone|].
  etrans; [exact (update_draft_single_metadata Scenario.article_version
                    (Scenario.posted Scenario.chief)
                    (mkStore Cases.three_drafts_db no_revision)
                    (mkMetaData 2 1 "draft" "en") Hperm Hnd Hone)|].
  vm_compute. reflexivity.
Defined.
